(** * Streamlink logger ([libs/streamlink/logger.py]): a shallow embedding

    The module extends Python's [logging] with two extra severities, a
    formatter that shortens logger names, a stream handler that survives a
    broken pipe, a bridge from [warnings] to log records, and [basicConfig].

    Conventions of the embedding:
    - Python [int] is [Z]; [str] is [string], a text held as its UTF-8
      bytes: searching and replacing substrings is the same on bytes as on
      characters; [str.lower()] is computed for ASCII text and taken from
      the interpreter's Unicode tables for any other text;
    - [None]-able values are [option];
    - a [dict] whose iteration order is observed is an association list in
      insertion order; the lookup tables of [logging] are [gmap]s;
    - module globals and the objects they point to live in an explicit
      [module_state]; objects compared by identity carry an allocation id;
    - a raised exception is the [Raise] branch of [result]. *)

From Stdlib Require Import ZArith String Ascii List Lia Bool DecimalString.
From stdpp Require Import base option list strings gmap.
Import ListNotations.

Local Open Scope Z_scope.
Local Open Scope string_scope.

(** ** Python strings *)

Module PyStr.

Definition is_ascii_upper (c : ascii) : bool :=
  let n := nat_of_ascii c in Nat.leb 65 n && Nat.leb n 90.

Definition is_ascii_lower (c : ascii) : bool :=
  let n := nat_of_ascii c in Nat.leb 97 n && Nat.leb n 122.

Definition char_lower (c : ascii) : ascii :=
  if is_ascii_upper c then ascii_of_nat (nat_of_ascii c + 32) else c.

Definition char_upper (c : ascii) : ascii :=
  if is_ascii_lower c then ascii_of_nat (nat_of_ascii c - 32) else c.

(** [s.lower()] and [s.upper()] for ASCII text: the letters A-Z and a-z
    change case, everything else stays.  [upper] is applied below to the
    level names of the module only; for [lower] on any other text see
    [str_lower]. *)
Fixpoint lower (s : string) : string :=
  match s with
  | EmptyString => EmptyString
  | String c s' => String (char_lower c) (lower s')
  end.

Fixpoint upper (s : string) : string :=
  match s with
  | EmptyString => EmptyString
  | String c s' => String (char_upper c) (upper s')
  end.

(** [s.startswith(p)]. *)
Fixpoint startswith (p s : string) : bool :=
  match p, s with
  | EmptyString, _ => true
  | String a p', String b s' => if Ascii.eqb a b then startswith p' s' else false
  | String _ _, EmptyString => false
  end.

(** [s.replace(old, "")]: scans left to right and drops every
    non-overlapping occurrence of [old].  [skip] counts the characters of
    the occurrence being dropped that are still ahead.  With an empty
    [old] Python inserts the (empty) replacement between characters, so
    the string is returned as it is. *)
Fixpoint replace_aux (old : string) (skip : nat) (s : string) : string :=
  match s with
  | EmptyString => EmptyString
  | String c s' =>
      match skip with
      | S k => replace_aux old k s'
      | O =>
          if startswith old s
          then replace_aux old (Nat.pred (String.length old)) s'
          else String c (replace_aux old O s')
      end
  end.

Definition replace_with_empty (old s : string) : string :=
  match old with
  | EmptyString => s
  | _ => replace_aux old O s
  end.

(** [str(n)] for an [int]. *)
Definition str_of_int (n : Z) : string :=
  NilZero.string_of_int (Z.to_int n).

(** [all(f(c) for c in s)]. *)
Fixpoint all_chars (f : ascii -> bool) (s : string) : bool :=
  match s with
  | EmptyString => true
  | String c s' => f c && all_chars f s'
  end.

(** [s.isascii()]. *)
Definition char_is_ascii (c : ascii) : bool := Nat.ltb (nat_of_ascii c) 128.

Definition is_ascii (s : string) : bool := all_chars char_is_ascii s.

End PyStr.

(** ** Severity levels *)

(** [sys.maxsize] is the largest [Py_ssize_t]: it depends on the build. *)
Inductive platform : Set := Py32 | Py64.

Definition sys_maxsize (p : platform) : Z :=
  match p with
  | Py32 => 2 ^ 31 - 1
  | Py64 => 2 ^ 63 - 1
  end.

(** Levels imported from [logging]. *)
Definition CRITICAL : Z := 50.
Definition ERROR : Z := 40.
Definition WARNING : Z := 30.
Definition INFO : Z := 20.
Definition DEBUG : Z := 10.
Definition NOTSET : Z := 0.

Definition NONE (p : platform) : Z := sys_maxsize p.
Definition TRACE : Z := 5.
Definition ALL : Z := 2.

(** A [dict] in insertion order.  Assigning to a key that is present
    replaces the value and keeps the key's position, as in Python. *)
Definition odict (V : Type) : Type := list (Z * V).

Fixpoint odict_set {V} (k : Z) (v : V) (d : odict V) : odict V :=
  match d with
  | [] => [(k, v)]
  | (k', v') :: d' =>
      if Z.eqb k k' then (k, v) :: d' else (k', v') :: odict_set k v d'
  end.

Definition odict_literal {V} (items : list (Z * V)) : odict V :=
  fold_left (fun d kv => odict_set (fst kv) (snd kv) d) items [].

Definition odict_items {V} (d : odict V) : list (Z * V) := d.
Definition odict_values {V} (d : odict V) : list V := map snd d.
Definition odict_keys {V} (d : odict V) : list Z := map fst d.

Definition _levelToNames (p : platform) : odict string :=
  odict_literal
    [ (NONE p, "none");
      (CRITICAL, "critical");
      (ERROR, "error");
      (WARNING, "warning");
      (INFO, "info");
      (DEBUG, "debug");
      (TRACE, "trace");
      (ALL, "all") ].

Definition _custom_levels : list Z := [TRACE; ALL].

(** The two tables of the [logging] module, with the contents they have
    when [logging] is first imported. *)
Record level_tables : Type := {
  levelToName : gmap Z string;
  nameToLevel : gmap string Z
}.

Definition logging_initial_tables : level_tables :=
  {| levelToName :=
       <[CRITICAL := "CRITICAL"]> (<[ERROR := "ERROR"]> (<[WARNING := "WARNING"]>
       (<[INFO := "INFO"]> (<[DEBUG := "DEBUG"]> (<[NOTSET := "NOTSET"]> ∅)))));
     nameToLevel :=
       <["CRITICAL" := CRITICAL]> (<["FATAL" := CRITICAL]> (<["ERROR" := ERROR]>
       (<["WARN" := WARNING]> (<["WARNING" := WARNING]> (<["INFO" := INFO]>
       (<["DEBUG" := DEBUG]> (<["NOTSET" := NOTSET]> ∅))))))) |}.

(** [logging.addLevelName(level, levelName)]. *)
Definition addLevelName (level : Z) (levelName : string) (t : level_tables)
  : level_tables :=
  {| levelToName := <[level := levelName]> (levelToName t);
     nameToLevel := <[levelName := level]> (nameToLevel t) |}.

(** [logging.getLevelName(level)] for an [int] argument. *)
Definition getLevelName (t : level_tables) (level : Z) : string :=
  match levelToName t !! level with
  | Some n => n
  | None => "Level " ++ PyStr.str_of_int level
  end.

(** What the registration loop leaves behind: the tables, and the methods
    it has set on [StreamlinkLogger] (attribute name, level logged at). *)
Record registration : Type := {
  tables : level_tables;
  logger_methods : list (string * Z)
}.

Definition member (x : Z) (l : list Z) : bool := existsb (Z.eqb x) l.

Definition register_level (r : registration) (item : Z * string) : registration :=
  let '(_level, _name) := item in
  let t := addLevelName _level (PyStr.upper _name) (tables r) in
  let t := addLevelName _level _name t in
  {| tables := t;
     logger_methods :=
       if member _level _custom_levels
       then logger_methods r ++ [(_name, _level)]
       else logger_methods r |}.

Definition registered (p : platform) : registration :=
  fold_left register_level (odict_items (_levelToNames p))
    {| tables := logging_initial_tables; logger_methods := [] |}.

Definition levels (p : platform) : list string := odict_values (_levelToNames p).

(** The integer a level name stands for once the module is loaded. *)
Definition level_value (p : platform) (levelName : string) : option Z :=
  nameToLevel (tables (registered p)) !! levelName.

(** ** Classes and exceptions *)

(** A class is its [__name__] and its direct bases; [issubclass] follows
    the bases.  Two classes are the same when name and ancestry agree. *)
#[warnings="-register-all"]
Inductive pyclass : Type :=
| Class (name : string) (bases : list pyclass).

Definition cls_name (c : pyclass) : string :=
  match c with Class n _ => n end.

Definition cls_bases (c : pyclass) : list pyclass :=
  match c with Class _ bs => bs end.

Fixpoint class_eqb (a b : pyclass) {struct a} : bool :=
  match a, b with
  | Class n1 bs1, Class n2 bs2 =>
      String.eqb n1 n2 &&
      (fix all2 (l1 l2 : list pyclass) {struct l1} : bool :=
         match l1, l2 with
         | [], [] => true
         | x :: l1', y :: l2' => class_eqb x y && all2 l1' l2'
         | _, _ => false
         end) bs1 bs2
  end.

Fixpoint issubclass (c target : pyclass) {struct c} : bool :=
  class_eqb c target ||
  match c with
  | Class _ bs => existsb (fun b => issubclass b target) bs
  end.

Definition BaseException : pyclass := Class "BaseException" [].
Definition Exception : pyclass := Class "Exception" [BaseException].
Definition OSError : pyclass := Class "OSError" [Exception].
Definition ConnectionError : pyclass := Class "ConnectionError" [OSError].
Definition BrokenPipeError : pyclass := Class "BrokenPipeError" [ConnectionError].
Definition ValueError : pyclass := Class "ValueError" [Exception].
Definition TypeError : pyclass := Class "TypeError" [Exception].
Definition AttributeError : pyclass := Class "AttributeError" [Exception].
Definition Warning : pyclass := Class "Warning" [Exception].
Definition UserWarning : pyclass := Class "UserWarning" [Warning].
Definition DeprecationWarning : pyclass := Class "DeprecationWarning" [Warning].

(** Modelled from the spec: [streamlink.exceptions] is not among the
    sources; [StreamlinkWarning] is the application's own warning kind, a
    warning category from which its other warnings derive. *)
Definition StreamlinkWarning : pyclass := Class "StreamlinkWarning" [UserWarning].
Definition StreamlinkDeprecationWarning : pyclass :=
  Class "StreamlinkDeprecationWarning" [StreamlinkWarning].

Record exn : Type := { exn_class : pyclass; exn_text : string }.

(** The outcome of a call: a value, or a raised exception. *)
Inductive result (A : Type) : Type :=
| Return (a : A)
| Raise (e : exn).
Arguments Return {A} a.
Arguments Raise {A} e.

(** [isinstance(e, cls)], the test of an [except cls:] clause. *)
Definition isinstance (e : exn) (cls : pyclass) : bool :=
  issubclass (exn_class e) cls.

(** ** Log records *)

(** [warnings.WarningMessage], as [_showwarning] fills it in. *)
Record WarningMessage : Type := {
  wm_message : string;             (* str(message) *)
  wm_category : option pyclass;
  wm_filename : string;
  wm_lineno : Z;
  wm_line : option string
}.

(** The [msg] of a logging call: [isinstance(msg, WarningMessage)] or not. *)
Inductive pymsg : Type :=
| MsgText (s : string)             (* any other object, by its str() *)
| MsgWarning (w : WarningMessage).

(** A record.  The factory below is the constructor every logging call
    goes through, and it builds a [WarningLogRecord] exactly when [msg] is
    a [WarningMessage]: the class of a record is read off its [msg]. *)
Record LogRecord : Type := {
  name : string;
  msg : pymsg;
  args : list string;
  levelname : string;
  levelno : Z;
  pathname : string;
  filename : string;
  module : string;
  exc_info : option string;
  exc_text : option string;
  stack_info : option string;
  lineno : Z;
  funcName : option string;
  created : Z;
  (** set by [Formatter.format] *)
  message : option string;
  asctime : option string
}.

(** Where and when a logging call happens: what [findCaller] and the clock
    report to the record constructor. *)
Record call_site : Type := {
  cs_fn : string;
  cs_lno : Z;
  cs_func : option string;
  cs_sinfo : option string;
  cs_time : Z
}.

(** ** What the module takes from its surroundings *)

Record environment : Type := {
  (** [os.path.basename] and the root part of [os.path.splitext] *)
  os_path_basename : string -> string;
  os_path_splitext_root : string -> string;
  (** [Path(p).name] and [Path(p).stem] *)
  Path_name : string -> string;
  Path_stem : string -> string;
  (** [fromlocaltimestamp(created).strftime(fmt)] *)
  local_strftime : Z -> string -> string;
  (** [msg % args] *)
  percent_format : string -> list string -> result string;
  (** opening [filename] in [mode] with utf-8 encoding: the error, if any *)
  open_file : string -> string -> option exn;
  (** [s.lower()] for a text that is not all ASCII *)
  unicode_lower : string -> string;
  (** the [str()] of an attribute of a record other than those spelled
      out in [record_attr] ([msg], [args], [exc_info], [created], [msecs],
      [thread], [threadName], [process], ... as the interpreter has them);
      [None] when the record has no attribute of that name *)
  other_attr : LogRecord -> string -> option string
}.

(** [s.lower()]. *)
Definition str_lower (env : environment) (s : string) : string :=
  if PyStr.is_ascii s then PyStr.lower s else unicode_lower env s.

Section Records.
Context (env : environment) (p : platform).

(** [logging.LogRecord.__init__]. *)
Definition LogRecord_init (ct : Z) (nm : string) (level : Z) (path : string)
    (lno : Z) (m : pymsg) (a : list string) (ei : option string)
    (func sinfo : option string) : LogRecord :=
  let fname := os_path_basename env path in
  {| name := nm;
     msg := m;
     args := a;
     levelname := getLevelName (tables (registered p)) level;
     levelno := level;
     pathname := path;
     filename := fname;
     module := os_path_splitext_root env fname;
     exc_info := ei;
     exc_text := None;
     stack_info := sinfo;
     lineno := lno;
     funcName := func;
     created := ct;
     message := None;
     asctime := None |}.

(** [WarningLogRecord.__init__]: the base constructor, then the fields
    taken from the warning. *)
Definition WarningLogRecord_init (ct : Z) (nm : string) (level : Z)
    (path : string) (lno : Z) (w : WarningMessage) (a : list string)
    (ei : option string) (func sinfo : option string) : LogRecord :=
  let self := LogRecord_init ct nm level path lno (MsgWarning w) a ei func sinfo in
  let path' := wm_filename w in
  {| name := "warnings";
     msg := msg self;
     args := args self;
     levelname :=
       match wm_category w with
       | Some c => cls_name c
       | None => cls_name UserWarning
       end;
     levelno := levelno self;
     pathname := path';
     filename := Path_name env path';
     module := Path_stem env path';
     exc_info := exc_info self;
     exc_text := exc_text self;
     stack_info := stack_info self;
     lineno := wm_lineno w;
     funcName := funcName self;
     created := created self;
     message := message self;
     asctime := asctime self |}.

(** [logging.LogRecord.getMessage]: [str(self.msg)], then [% self.args]
    when there are any. *)
Definition LogRecord_getMessage (s : string) (a : list string) : result string :=
  match a with
  | [] => Return s
  | _ => percent_format env s a
  end.

(** [WarningLogRecord.getMessage]. *)
Definition WarningLogRecord_getMessage (w : WarningMessage) (path : string)
    (lno : Z) : string :=
  if match wm_category w with
     | Some c => issubclass c StreamlinkWarning
     | None => false
     end
  then wm_message w
  else wm_message w ++ String "010" "  " ++ path ++ ":" ++ PyStr.str_of_int lno.

(** [record.getMessage()], by the record's class. *)
Definition getMessage (r : LogRecord) : result string :=
  match msg r with
  | MsgText s => LogRecord_getMessage s (args r)
  | MsgWarning w => Return (WarningLogRecord_getMessage w (pathname r) (lineno r))
  end.

(** [_log_record_factory_default] is [logging.getLogRecordFactory()] at
    import time, the [LogRecord] class. *)
Definition _log_record_factory_default := LogRecord_init.

Definition _log_record_factory (ct : Z) (nm : string) (level : Z) (fn : string)
    (lno : Z) (m : pymsg) (a : list string) (ei : option string)
    (func sinfo : option string) : LogRecord :=
  match m with
  | MsgWarning w => WarningLogRecord_init ct nm level fn lno w a ei func sinfo
  | MsgText _ => _log_record_factory_default ct nm level fn lno m a ei None None
  end.

End Records.

(** ** The formatter *)

(** A format string as its style splits it: literal text and replacement
    fields, each field the name of a record attribute. *)
Inductive segment : Type :=
| Lit (text : string)
| Field (attr : string).

Definition template : Type := list segment.

(** ["[{name}][{levelname}] {message}"] in [FORMAT_STYLE], which is ["{"]. *)
Definition FORMAT_BASE : template :=
  [Lit "["; Field "name"; Lit "]["; Field "levelname"; Lit "] "; Field "message"].
Definition FORMAT_DATE : string := "%H:%M:%S".
Definition REMOVE_BASE : list string := ["streamlink"; "streamlink_cli"].

Record StringFormatter : Type := {
  fmt : template;
  datefmt : option string;
  _remove_base : list string;
  _usesTime : bool
}.

(** Assignments to attributes of a record. *)
Definition set_name (v : string) (r : LogRecord) : LogRecord :=
  {| name := v; msg := msg r; args := args r; levelname := levelname r;
     levelno := levelno r; pathname := pathname r; filename := filename r;
     module := module r; exc_info := exc_info r; exc_text := exc_text r;
     stack_info := stack_info r; lineno := lineno r; funcName := funcName r;
     created := created r; message := message r; asctime := asctime r |}.

Definition set_levelname (v : string) (r : LogRecord) : LogRecord :=
  {| name := name r; msg := msg r; args := args r; levelname := v;
     levelno := levelno r; pathname := pathname r; filename := filename r;
     module := module r; exc_info := exc_info r; exc_text := exc_text r;
     stack_info := stack_info r; lineno := lineno r; funcName := funcName r;
     created := created r; message := message r; asctime := asctime r |}.

Definition set_message (v : option string) (r : LogRecord) : LogRecord :=
  {| name := name r; msg := msg r; args := args r; levelname := levelname r;
     levelno := levelno r; pathname := pathname r; filename := filename r;
     module := module r; exc_info := exc_info r; exc_text := exc_text r;
     stack_info := stack_info r; lineno := lineno r; funcName := funcName r;
     created := created r; message := v; asctime := asctime r |}.

Definition set_asctime (v : option string) (r : LogRecord) : LogRecord :=
  {| name := name r; msg := msg r; args := args r; levelname := levelname r;
     levelno := levelno r; pathname := pathname r; filename := filename r;
     module := module r; exc_info := exc_info r; exc_text := exc_text r;
     stack_info := stack_info r; lineno := lineno r; funcName := funcName r;
     created := created r; message := message r; asctime := v |}.

Definition set_exc_text (v : option string) (r : LogRecord) : LogRecord :=
  {| name := name r; msg := msg r; args := args r; levelname := levelname r;
     levelno := levelno r; pathname := pathname r; filename := filename r;
     module := module r; exc_info := exc_info r; exc_text := v;
     stack_info := stack_info r; lineno := lineno r; funcName := funcName r;
     created := created r; message := message r; asctime := asctime r |}.

Definition str_of_option (o : option string) : string :=
  match o with
  | Some s => s
  | None => "None"
  end.

(** The attributes of a record a template can name, by their [str()].
    [message] and [asctime] exist once [Formatter.format] has set them;
    an attribute that is not spelled out here is looked up outside. *)
Definition record_attr (env : environment) (r : LogRecord) (attr : string)
  : option string :=
  if String.eqb attr "name" then Some (name r)
  else if String.eqb attr "levelname" then Some (levelname r)
  else if String.eqb attr "levelno" then Some (PyStr.str_of_int (levelno r))
  else if String.eqb attr "pathname" then Some (pathname r)
  else if String.eqb attr "filename" then Some (filename r)
  else if String.eqb attr "module" then Some (module r)
  else if String.eqb attr "lineno" then Some (PyStr.str_of_int (lineno r))
  else if String.eqb attr "funcName" then Some (str_of_option (funcName r))
  else if String.eqb attr "message" then message r
  else if String.eqb attr "asctime" then asctime r
  else other_attr env r attr.

Definition is_field (g : segment) : bool :=
  match g with
  | Field _ => true
  | Lit _ => false
  end.

(** [old in s]. *)
Fixpoint str_occurs (old s : string) : bool :=
  PyStr.startswith old s ||
  match s with
  | EmptyString => false
  | String _ s' => str_occurs old s'
  end.

(** Whether the segment makes the format string contain ["{asctime"],
    what [usesTime] of the style searches for: a field whose name begins
    with "asctime", or literal text with that very text in it. *)
Definition is_asctime (g : segment) : bool :=
  match g with
  | Field a => PyStr.startswith "asctime" a
  | Lit text => str_occurs "{asctime" text
  end.

(** Whether the format string is empty: [fmt or self.default_format]. *)
Definition is_empty_segment (g : segment) : bool :=
  match g with
  | Lit text => String.eqb text ""
  | Field _ => false
  end.

(** The format the style keeps: ["{message}"] stands in for an empty one. *)
Definition effective_format (f : template) : template :=
  if forallb is_empty_segment f then [Field "message"] else f.

Definition value_error (text : string) : exn :=
  {| exn_class := ValueError; exn_text := text |}.

(** The style's [format(record)]: a field missing from the record is a
    [ValueError]. *)
Fixpoint style_format (env : environment) (t : template) (r : LogRecord)
  : result string :=
  match t with
  | [] => Return ""
  | Lit text :: t' =>
      match style_format env t' r with
      | Return rest => Return (text ++ rest)
      | Raise e => Raise e
      end
  | Field attr :: t' =>
      match record_attr env r attr with
      | None => Raise (value_error ("Formatting field not found in record: " ++ attr))
      | Some v =>
          match style_format env t' r with
          | Return rest => Return (v ++ rest)
          | Raise e => Raise e
          end
      end
  end.

(** [s[-1:] != "\n"], then the separator the base formatter inserts. *)
Fixpoint ends_with_newline (s : string) : bool :=
  match s with
  | EmptyString => false
  | String c EmptyString => Ascii.eqb c "010"
  | String _ s' => ends_with_newline s'
  end.

Definition on_new_line (s extra : string) : string :=
  (if ends_with_newline s then s else s ++ String "010" "") ++ extra.

Section Formatting.
Context (env : environment) (p : platform).

Definition default_time_format : string := "%Y-%m-%d %H:%M:%S".

(** [StringFormatter.formatTime]. *)
Definition formatTime (record : LogRecord) (dfmt : option string) : string :=
  local_strftime env (created record)
    match dfmt with
    | Some d => if String.eqb d "" then default_time_format else d
    | None => default_time_format
    end.

(** [logging.Formatter.format], with [usesTime] and [formatTime] as
    [StringFormatter] overrides them.  The record comes back with the
    attributes the call has set. *)
Definition Formatter_format (self : StringFormatter) (record : LogRecord)
  : LogRecord * result string :=
  match getMessage env record with
  | Raise e => (record, Raise e)
  | Return m =>
      let record := set_message (Some m) record in
      let record :=
        if _usesTime self
        then set_asctime (Some (formatTime record (datefmt self))) record
        else record in
      match style_format env (fmt self) record with
      | Raise e => (record, Raise e)
      | Return s =>
          let record :=
            match exc_info record with
            | Some tb =>
                if String.eqb (default "" (exc_text record)) ""
                then set_exc_text (Some tb) record
                else record
            | None => record
            end in
          let s :=
            match exc_text record with
            | Some t => if String.eqb t "" then s else on_new_line s t
            | None => s
            end in
          let s :=
            match stack_info record with
            | Some st => if String.eqb st "" then s else on_new_line s st
            | None => s
            end in
          (record, Return s)
      end
  end.

(** The loop and the assignment that open [StringFormatter.format]. *)
Definition strip_bases (bases : list string) (nm : string) : string :=
  fold_left (fun n rbase => PyStr.replace_with_empty (rbase ++ ".") n) bases nm.

Definition format_fields (self : StringFormatter) (record : LogRecord) : LogRecord :=
  let record := set_name (strip_bases (_remove_base self) (name record)) record in
  set_levelname (str_lower env (levelname record)) record.

(** [StringFormatter.format]. *)
Definition format (self : StringFormatter) (record : LogRecord)
  : LogRecord * result string :=
  Formatter_format self (format_fields self record).

(** [StringFormatter.__init__]: the base constructor takes the default
    format for an empty one and validates the style (a format without
    fields is refused); then one record is formatted to find fields that
    no record has. *)
Definition StringFormatter_init (ct : Z) (f : template) (dfmt : option string)
    (remove_base : option (list string)) : result StringFormatter :=
  let f := effective_format f in
  if negb (existsb is_field f)
  then Raise (value_error "invalid format: no fields")
  else
    let self :=
      {| fmt := f;
         datefmt := dfmt;
         _remove_base := match remove_base with
                         | Some (b :: bs) => b :: bs
                         | _ => []
                         end;
         _usesTime := existsb is_asctime f |} in
    let rec := LogRecord_init env p ct "" 1 "" 1 (MsgText "") [] None None None in
    match snd (Formatter_format self rec) with
    | Raise e => Raise e
    | Return _ => Return self
    end.

End Formatting.

(** ** Handlers *)

(** An output stream, as far as the handler touches it. *)
Record pystream : Type := {
  stream_id : nat;
  (** the stream's [errors] setting *)
  stream_errors : string;
  (** whether it has a [reconfigure] method *)
  stream_reconfigurable : bool;
  (** [None]: no [flush] attribute; otherwise what [stream.flush()] does *)
  stream_flush : option (result unit)
}.

Inductive handler_target : Type :=
| ToFile (file mode : string)          (* logging.FileHandler *)
| ToStream (s : pystream).             (* StreamHandler of this module *)

Record Handler : Type := {
  handler_id : nat;
  target : handler_target;
  formatter : option StringFormatter
}.

(** [logging.StreamHandler.flush]. *)
Definition logging_StreamHandler_flush (s : pystream) : result unit :=
  match stream_flush s with
  | Some outcome => outcome
  | None => Return tt
  end.

(** [StreamHandler.flush]: [except OSError: pass]. *)
Definition StreamHandler_flush (s : pystream) : result unit :=
  match logging_StreamHandler_flush s with
  | Return tt => Return tt
  | Raise e => if isinstance e OSError then Return tt else Raise e
  end.

(** [StreamHandler._stream_reconfigure]. *)
Definition _stream_reconfigure (s : pystream) : result pystream :=
  if stream_reconfigurable s
  then Return {| stream_id := stream_id s;
                 stream_errors := "backslashreplace";
                 stream_reconfigurable := true;
                 stream_flush := stream_flush s |}
  else Raise {| exn_class := AttributeError; exn_text := "reconfigure" |}.

(** ** Loggers *)

Record Logger : Type := {
  logger_name : string;
  logger_level : Z;
  (** the levels of the ancestors, nearest first *)
  parent_levels : list Z;
  logger_disabled : bool;
  (** [self.manager.disable] *)
  manager_disable : Z;
  handlers : list Handler
}.

Fixpoint first_set_level (ls : list Z) : Z :=
  match ls with
  | [] => NOTSET
  | l :: ls' => if Z.eqb l 0 then first_set_level ls' else l
  end.

Definition getEffectiveLevel (self : Logger) : Z :=
  first_set_level (logger_level self :: parent_levels self).

Definition isEnabledFor (self : Logger) (level : Z) : bool :=
  if logger_disabled self then false
  else if Z.geb (manager_disable self) level then false
  else Z.geb level (getEffectiveLevel self).

(** What a run leaves to observe: how often the level was checked, and the
    records that were built for the handlers. *)
Record effects : Type := {
  enabled_checks : nat;
  made_records : list LogRecord
}.

Definition no_effects : effects := {| enabled_checks := 0; made_records := [] |}.

Definition count_check (eff : effects) : effects :=
  {| enabled_checks := S (enabled_checks eff); made_records := made_records eff |}.

Definition add_record (r : LogRecord) (eff : effects) : effects :=
  {| enabled_checks := enabled_checks eff; made_records := made_records eff ++ [r] |}.

(** The [messages] argument.  An iterator is its own iterator and keeps
    what is left of it; a container hands out a new iterator each time. *)
Inductive iterable : Type :=
| Iterator (pending : list string)
| Container (items : list string).

(** An iterator obtained from [messages]. *)
Inductive cursor : Type :=
| Itself
| Fresh (rest : list string).

Definition py_iter (m : iterable) : cursor :=
  match m with
  | Iterator _ => Itself
  | Container items => Fresh items
  end.

(** [next(c)]: the item, or [None] for [StopIteration]. *)
Definition py_next (c : cursor) (m : iterable) : option string * cursor * iterable :=
  match c with
  | Itself =>
      match m with
      | Iterator (x :: rest) => (Some x, Itself, Iterator rest)
      | _ => (None, Itself, m)
      end
  | Fresh (x :: rest) => (Some x, Fresh rest, m)
  | Fresh [] => (None, c, m)
  end.

(** Where the generator of [StreamlinkLogger.iter] is suspended. *)
Inductive position : Type :=
| Created
| InYieldFrom (c : cursor)
| InForLoop (c : cursor)
| Finished.

Record generator : Type := {
  at_position : position;
  messages : iterable;
  observed : effects
}.

Section StreamlinkLogger.
Context (env : environment) (p : platform).
Context (self : Logger) (level : Z) (call_args : list string) (site : call_site).

(** [Logger._log]: the record is made by the installed factory. *)
Definition _log (lvl : Z) (m : pymsg) (eff : effects) : effects :=
  add_record
    (_log_record_factory env p (cs_time site) (logger_name self) lvl
       (cs_fn site) (cs_lno site) m call_args None (cs_func site) (cs_sinfo site))
    eff.

(** The [for] loop of [iter], from its [next] on. *)
Definition for_loop (c : cursor) (m : iterable) (eff : effects)
  : option string * generator :=
  match py_next c m with
  | (Some message, c', m') =>
      (Some message,
       {| at_position := InForLoop c';
          messages := m';
          observed := _log level (MsgText message) eff |})
  | (None, _, m') =>
      (None, {| at_position := Finished; messages := m'; observed := eff |})
  end.

(** [yield from messages]; when it is exhausted the body goes on to the
    [for] loop, which asks [messages] for an iterator again. *)
Definition yield_from (c : cursor) (m : iterable) (eff : effects)
  : option string * generator :=
  match py_next c m with
  | (Some message, c', m') =>
      (Some message,
       {| at_position := InYieldFrom c'; messages := m'; observed := eff |})
  | (None, _, m') => for_loop (py_iter m') m' eff
  end.

(** [StreamlinkLogger.iter(level, messages, *args)]: calling it makes the
    generator; nothing runs yet. *)
Definition iter (m : iterable) (eff : effects) : generator :=
  {| at_position := Created; messages := m; observed := eff |}.

(** [next(g)]. *)
Definition gen_next (g : generator) : option string * generator :=
  match at_position g with
  | Created =>
      let eff := count_check (observed g) in
      if negb (isEnabledFor self level)
      then yield_from (py_iter (messages g)) (messages g) eff
      else for_loop (py_iter (messages g)) (messages g) eff
  | InYieldFrom c => yield_from c (messages g) (observed g)
  | InForLoop c => for_loop c (messages g) (observed g)
  | Finished => (None, g)
  end.

(** [list(g)]: [next] until [StopIteration]; [None] when [fuel] calls
    were not enough. *)
Fixpoint collect (fuel : nat) (g : generator) : option (list string * generator) :=
  match fuel with
  | O => None
  | S fuel' =>
      match gen_next g with
      | (None, g') => Some ([], g')
      | (Some x, g') =>
          match collect fuel' g' with
          | Some (xs, g'') => Some (x :: xs, g'')
          | None => None
          end
      end
  end.

(** A method that [_logmethodfactory(lvl, name)] returns. *)
Definition logmethod (lvl : Z) (message : string) (eff : effects) : effects :=
  let eff := count_check eff in
  if isEnabledFor self lvl then _log lvl (MsgText message) eff else eff.

End StreamlinkLogger.

(** ** Module state, warning capture and configuration *)

(** A callable that can sit in [warnings.showwarning]. *)
Inductive hook : Type :=
| This_showwarning                (* _showwarning of this module *)
| Other_showwarning (id : nat).   (* any other function *)

Record module_state : Type := {
  root : Logger;
  warnings_showwarning : hook;
  _showwarning_default : option hook;
  (** the identity the next new handler gets *)
  next_id : nat
}.

(** The state the last lines of the module leave: [root] is the logger
    named "streamlink" at level [WARNING], below [logging.root]. *)
Definition initial_state (showwarning : hook) : module_state :=
  {| root := {| logger_name := "streamlink";
                logger_level := WARNING;
                parent_levels := [WARNING];
                logger_disabled := false;
                manager_disable := 0;
                handlers := [] |};
     warnings_showwarning := showwarning;
     _showwarning_default := None;
     next_id := 0 |}.

Definition capturewarnings (capture : bool) (st : module_state) : module_state :=
  if capture then
    match _showwarning_default st with
    | None =>
        {| root := root st;
           warnings_showwarning := This_showwarning;
           _showwarning_default := Some (warnings_showwarning st);
           next_id := next_id st |}
    | Some _ => st
    end
  else
    match _showwarning_default st with
    | Some previous =>
        {| root := root st;
           warnings_showwarning := previous;
           _showwarning_default := None;
           next_id := next_id st |}
    | None => st
    end.

(** What [_showwarning] does with a warning. *)
Inductive shown : Type :=
| Delegated (to : hook)               (* handed to the remembered hook *)
| Dropped                             (* a file was given, no hook is remembered *)
| Logged (w : WarningMessage).        (* root.log(WARNING, warning) *)

Definition _showwarning (st : module_state) (text : string) (category : option pyclass)
    (file_name : string) (lno : Z) (file : option pystream) (line : option string) : shown :=
  match file with
  | Some _ =>
      match _showwarning_default st with
      | Some h => Delegated h
      | None => Dropped
      end
  | None =>
      Logged {| wm_message := text; wm_category := category;
                wm_filename := file_name; wm_lineno := lno; wm_line := line |}
  end.

(** State passing with exceptions: a raise keeps the state reached. *)
Definition M (A : Type) : Type := module_state -> module_state * result A.

Definition ret {A} (a : A) : M A := fun st => (st, Return a).

Definition bind {A B} (m : M A) (k : A -> M B) : M B :=
  fun st =>
    match m st with
    | (st', Return a) => k a st'
    | (st', Raise e) => (st', Raise e)
    end.

Definition lift {A} (r : result A) : M A := fun st => (st, r).

Definition modify (f : module_state -> module_state) : M unit :=
  fun st => (f st, Return tt).

Notation "'do' x <- m ; k" := (bind m (fun x => k))
  (at level 10, x name, m at level 100, k at level 200).
Notation "m ;; k" := (bind m (fun _ => k))
  (at level 100, k at level 200, right associativity).

Definition with_root (f : Logger -> Logger) (st : module_state) : module_state :=
  {| root := f (root st);
     warnings_showwarning := warnings_showwarning st;
     _showwarning_default := _showwarning_default st;
     next_id := next_id st |}.

(** A new object: its identity is taken from the counter. *)
Definition new_id : M nat :=
  fun st =>
    ({| root := root st;
        warnings_showwarning := warnings_showwarning st;
        _showwarning_default := _showwarning_default st;
        next_id := S (next_id st) |},
     Return (next_id st)).

(** [hdlr in self.handlers]: handlers compare by identity. *)
Definition has_handler (h : Handler) (hs : list Handler) : bool :=
  existsb (fun h' => Nat.eqb (handler_id h) (handler_id h')) hs.

(** [Logger.addHandler]. *)
Definition addHandler (h : Handler) (self : Logger) : Logger :=
  {| logger_name := logger_name self;
     logger_level := logger_level self;
     parent_levels := parent_levels self;
     logger_disabled := logger_disabled self;
     manager_disable := manager_disable self;
     handlers := if has_handler h (handlers self)
                 then handlers self
                 else handlers self ++ [h] |}.

Definition set_logger_level (v : Z) (self : Logger) : Logger :=
  {| logger_name := logger_name self;
     logger_level := v;
     parent_levels := parent_levels self;
     logger_disabled := logger_disabled self;
     manager_disable := manager_disable self;
     handlers := handlers self |}.

(** The keyword arguments of [basicConfig]. *)
Record config : Type := {
  cfg_filename : option string;
  cfg_filemode : string;
  cfg_format : template;
  cfg_datefmt : string;
  cfg_level : option string;
  cfg_stream : option pystream;
  cfg_remove_base : option (list string);
  cfg_capture_warnings : bool
}.

Definition config_defaults : config :=
  {| cfg_filename := None;
     cfg_filemode := "a";
     cfg_format := FORMAT_BASE;
     cfg_datefmt := FORMAT_DATE;
     cfg_level := None;
     cfg_stream := None;
     cfg_remove_base := None;
     cfg_capture_warnings := false |}.

Section Configuration.
Context (env : environment) (p : platform).

(** [logging._checkLevel] for a [str]. *)
Definition _checkLevel (levelName : string) : result Z :=
  match level_value p levelName with
  | Some v => Return v
  | None => Raise (value_error ("Unknown level: " ++ levelName))
  end.

(** [Logger.setLevel] on [root]. *)
Definition root_setLevel (levelName : string) : M unit :=
  do v <- lift (_checkLevel levelName);
  modify (with_root (set_logger_level v)).

(** [logging.FileHandler(filename, filemode, encoding="utf-8")]. *)
Definition FileHandler_new (file mode : string) : M Handler :=
  match open_file env file mode with
  | Some e => lift (Raise e)
  | None =>
      do i <- new_id;
      ret {| handler_id := i; target := ToFile file mode; formatter := None |}
  end.

(** [StreamHandler(stream)]. *)
Definition StreamHandler_new (s : pystream) : M Handler :=
  do i <- new_id;
  do s' <- lift (_stream_reconfigure s);
  ret {| handler_id := i; target := ToStream s'; formatter := None |}.

Definition setFormatter (f : StringFormatter) (h : Handler) : Handler :=
  {| handler_id := handler_id h; target := target h; formatter := Some f |}.

(** [x or REMOVE_BASE] for an optional list. *)
Definition or_REMOVE_BASE (x : option (list string)) : list string :=
  match x with
  | Some (b :: bs) => b :: bs
  | _ => REMOVE_BASE
  end.

(** [basicConfig], at time [ct].  The lock makes calls run one after the
    other; a call is a step on the module state. *)
Definition basicConfig (ct : Z) (c : config) : M (option Handler) :=
  do handler <-
    match cfg_filename c with
    | Some file =>
        do h <- FileHandler_new file (cfg_filemode c); ret (Some h)
    | None =>
        match cfg_stream c with
        | Some s => do h <- StreamHandler_new s; ret (Some h)
        | None => ret None
        end
    end;
  do handler <-
    match handler with
    | Some h =>
        do f <- lift (StringFormatter_init env p ct (cfg_format c)
                        (Some (cfg_datefmt c))
                        (Some (or_REMOVE_BASE (cfg_remove_base c))));
        let h := setFormatter f h in
        modify (with_root (addHandler h));;
        ret (Some h)
    | None => ret None
    end;
  match cfg_level c with
  | Some l => root_setLevel l
  | None => ret tt
  end;;
  (if cfg_capture_warnings c then modify (capturewarnings true) else ret tt);;
  ret handler.

(** Calls one after the other; the first exception ends the run. *)
Fixpoint basicConfig_all (ct : Z) (cs : list config) : M (list (option Handler)) :=
  match cs with
  | [] => ret []
  | c :: cs' =>
      do h <- basicConfig ct c;
      do hs <- basicConfig_all ct cs';
      ret (h :: hs)
  end.

End Configuration.

(** ** Specification-side notions and sample inputs *)

(** [drops_all old s out]: [out] is [s] read from the left with every
    occurrence of [old] met on the way left out. *)
Inductive drops_all (old : string) : string -> string -> Prop :=
| drops_end : drops_all old "" ""
| drops_here (rest out : string) :
    drops_all old rest out -> drops_all old (old ++ rest) out
| drops_keep (c : ascii) (s out : string) :
    PyStr.startswith old (String c s) = false ->
    drops_all old s out -> drops_all old (String c s) (String c out).

(** One [drops_all] pass per base, in the order of the list. *)
Inductive strips : list string -> string -> string -> Prop :=
| strips_done (n : string) : strips [] n n
| strips_next (b : string) (bs : list string) (n n1 n2 : string) :
    drops_all (b ++ ".") n n1 -> strips bs n1 n2 -> strips (b :: bs) n n2.

(** The reading "only from the start of the name": a base followed by "."
    is cut off when the name begins with it, and nothing else is touched. *)
Fixpoint drop_prefix (pre s : string) : string :=
  match pre, s with
  | String _ pre', String _ s' => drop_prefix pre' s'
  | _, _ => s
  end.

Definition strip_leading_bases (bases : list string) (nm : string) : string :=
  fold_left
    (fun n rbase =>
       if PyStr.startswith (rbase ++ ".") n then drop_prefix (rbase ++ ".") n else n)
    bases nm.

(** The fields the two assignments of [StringFormatter.format] leave alone. *)
Definition same_payload (r r' : LogRecord) : Prop :=
  msg r' = msg r /\ args r' = args r /\ levelno r' = levelno r /\
  pathname r' = pathname r /\ filename r' = filename r /\ module r' = module r /\
  exc_info r' = exc_info r /\ stack_info r' = stack_info r /\
  lineno r' = lineno r /\ funcName r' = funcName r /\ created r' = created r.

(** The record [_log] makes for one message of [iter]. *)
Definition iter_record (env : environment) (p : platform) (self : Logger) (level : Z)
    (call_args : list string) (site : call_site) (message : string) : LogRecord :=
  _log_record_factory env p (cs_time site) (logger_name self) level
    (cs_fn site) (cs_lno site) (MsgText message) call_args None
    (cs_func site) (cs_sinfo site).


(** Whether a call names an output target. *)
Definition has_target (c : config) : bool :=
  match cfg_filename c, cfg_stream c with
  | None, None => false
  | _, _ => true
  end.

Definition is_Return {A} (r : result A) : bool :=
  match r with
  | Return _ => true
  | Raise _ => false
  end.



(** [basicConfig(stream=s)]. *)
Definition stream_config (s : pystream) : config :=
  {| cfg_filename := None;
     cfg_filemode := "a";
     cfg_format := FORMAT_BASE;
     cfg_datefmt := FORMAT_DATE;
     cfg_level := None;
     cfg_stream := Some s;
     cfg_remove_base := None;
     cfg_capture_warnings := false |}.

(** Surroundings in which every outside call is as plain as can be. *)
Definition sample_env : environment :=
  {| os_path_basename := fun path => path;
     os_path_splitext_root := fun file => file;
     Path_name := fun path => path;
     Path_stem := fun path => path;
     local_strftime := fun _ pattern => pattern;
     percent_format := fun s _ => Return s;
     open_file := fun _ _ => None;
     unicode_lower := fun s => s;
     other_attr := fun r attr =>
       if String.eqb attr "msg"
       then Some match msg r with MsgText s => s | MsgWarning w => wm_message w end
       else if String.eqb attr "args" then Some "()"
       else if String.eqb attr "exc_info" then Some (str_of_option (exc_info r))
       else if String.eqb attr "exc_text" then Some (str_of_option (exc_text r))
       else if String.eqb attr "stack_info" then Some (str_of_option (stack_info r))
       else if String.eqb attr "created" then Some (PyStr.str_of_int (created r) ++ ".0")
       else if String.eqb attr "msecs" then Some "0.0"
       else if String.eqb attr "relativeCreated" then Some "0.0"
       else if String.eqb attr "thread" then Some "1"
       else if String.eqb attr "threadName" then Some "MainThread"
       else if String.eqb attr "process" then Some "1"
       else if String.eqb attr "processName" then Some "MainProcess"
       else if String.eqb attr "taskName" then Some "None"
       else None |}.

(** The formatter [basicConfig] builds from its defaults. *)
Definition default_formatter : StringFormatter :=
  {| fmt := FORMAT_BASE;
     datefmt := Some FORMAT_DATE;
     _remove_base := REMOVE_BASE;
     _usesTime := false |}.

Definition sample_site : call_site :=
  {| cs_fn := "plugin.py"; cs_lno := 12; cs_func := Some "run";
     cs_sinfo := Some "Stack (most recent call last)"; cs_time := 0 |}.

(** A record as a call [log.info("hello")] on the logger [nm] makes it. *)
Definition sample_record (nm : string) : LogRecord :=
  _log_record_factory sample_env Py64 0 nm INFO "plugin.py" 12 (MsgText "hello") []
    None (Some "run") None.

(** The same formatter, told to strip "streamlink" alone. *)
Definition streamlink_formatter : StringFormatter :=
  {| fmt := FORMAT_BASE;
     datefmt := Some FORMAT_DATE;
     _remove_base := ["streamlink"];
     _usesTime := false |}.

(** A record as the warning bridge makes it. *)
Definition sample_warning_record (category : option pyclass) : LogRecord :=
  _log_record_factory sample_env Py64 0 "streamlink" WARNING "logger.py" 188
    (MsgWarning {| wm_message := "old API"; wm_category := category;
                   wm_filename := "/app/plugin.py"; wm_lineno := 7;
                   wm_line := None |})
    [] None None None.

(** A text stream whose [flush] does what [outcome] says. *)
Definition sample_stream (i : nat) (outcome : result unit) : pystream :=
  {| stream_id := i; stream_errors := "strict"; stream_reconfigurable := true;
     stream_flush := Some outcome |}.

Definition broken_pipe : exn :=
  {| exn_class := BrokenPipeError; exn_text := "[Errno 32] Broken pipe" |}.

Definition sample_warning (category : option pyclass) : WarningMessage :=
  {| wm_message := "old API"; wm_category := category;
     wm_filename := "/app/plugin.py"; wm_lineno := 7; wm_line := None |}.

(** ** Further operations of the module *)

(** [logging.Logger.log(level, msg)] for an [int] level. *)
Definition Logger_log (env : environment) (p : platform) (self : Logger)
    (call_args : list string) (site : call_site) (lvl : Z) (m : pymsg)
    (eff : effects) : effects :=
  let eff := count_check eff in
  if isEnabledFor self lvl then _log env p self call_args site lvl m eff else eff.

(** What a call of [_showwarning] leaves to observe: for a warning that
    is logged, [root.log(WARNING, warning, stacklevel=2)], which passes no
    arguments and asks for no stack info. *)
Definition _showwarning_effects (env : environment) (p : platform) (site : call_site)
    (st : module_state) (text : string) (category : option pyclass)
    (file_name : string) (lno : Z) (file : option pystream) (line : option string)
    (eff : effects) : effects :=
  match _showwarning st text category file_name lno file line with
  | Logged w =>
      Logger_log env p (root st) []
        {| cs_fn := cs_fn site; cs_lno := cs_lno site; cs_func := cs_func site;
           cs_sinfo := None; cs_time := cs_time site |}
        WARNING (MsgWarning w) eff
  | Delegated _ | Dropped => eff
  end.


(** The generator runs on the iterator it was given (not on an iterator
    made from a container). *)
Definition on_iterator (g : generator) : bool :=
  match at_position g with
  | InYieldFrom (Fresh _) | InForLoop (Fresh _) => false
  | _ => true
  end.

Definition pending_of (g : generator) : list string :=
  match messages g with
  | Iterator l => l
  | Container l => l
  end.

(** The two hook slots agree: while a hook is remembered, the installed
    one is [_showwarning] and the remembered one is another function;
    while none is remembered, the installed one is not [_showwarning]. *)
Definition hooks_coherent (st : module_state) : Prop :=
  match _showwarning_default st with
  | Some h => warnings_showwarning st = This_showwarning /\ h <> This_showwarning
  | None => warnings_showwarning st <> This_showwarning
  end.

(** [basicConfig(stream=s, level=l)]. *)
Definition stream_level_config (s : pystream) (l : string) : config :=
  {| cfg_filename := None;
     cfg_filemode := "a";
     cfg_format := FORMAT_BASE;
     cfg_datefmt := FORMAT_DATE;
     cfg_level := Some l;
     cfg_stream := Some s;
     cfg_remove_base := None;
     cfg_capture_warnings := false |}.

(** A stream without [reconfigure], such as [io.StringIO]. *)
Definition plain_stream (i : nat) : pystream :=
  {| stream_id := i; stream_errors := "strict"; stream_reconfigurable := false;
     stream_flush := Some (Return tt) |}.

(** * Properties *)

(** ** The level registry *)

Example levels_py64 :
  levels Py64 = ["none"; "critical"; "error"; "warning"; "info"; "debug"; "trace"; "all"].
Proof. reflexivity. Qed.

Example trace_is_a_method :
  logger_methods (registered Py32) = [("trace", TRACE); ("all", ALL)].
Proof. vm_compute. reflexivity. Qed.

Lemma level_values (p : platform) :
  map (level_value p) (levels p)
  = [Some (NONE p); Some CRITICAL; Some ERROR; Some WARNING; Some INFO;
     Some DEBUG; Some TRACE; Some ALL].
Proof. destruct p; vm_compute; reflexivity. Qed.

Lemma level_values_upper (p : platform) :
  map (fun n => level_value p (PyStr.upper n)) (levels p) = map (level_value p) (levels p).
Proof. destruct p; vm_compute; reflexivity. Qed.

(** C2, as the code has it: [levels] lists the lowercase names in the
    insertion order of [_levelToNames], which is descending severity:
    "none" first and "all" last, the reverse of the ascending list. *)
Theorem levels_descending (p : platform) :
  levels p = ["none"; "critical"; "error"; "warning"; "info"; "debug"; "trace"; "all"]
  /\ levels p = rev ["all"; "trace"; "debug"; "info"; "warning"; "error"; "critical"; "none"]
  /\ map (level_value p) (levels p)
     = [Some (NONE p); Some 50; Some 40; Some 30; Some 20; Some 10; Some 5; Some 2]
  /\ 2 < 5 < 10 /\ 10 < 20 < 30 /\ 30 < 40 < 50 /\ 50 < NONE p.
Proof.
  split; [destruct p; reflexivity|].
  split; [destruct p; reflexivity|].
  split; [apply level_values|].
  destruct p; unfold NONE, sys_maxsize; lia.
Qed.

(** C2 as stated fails: [levels] is not the ascending list. *)
Lemma levels_not_ascending :
  levels Py64 <> ["all"; "trace"; "debug"; "info"; "warning"; "error"; "critical"; "none"].
Proof. discriminate. Qed.

(** C6: the eight names stand for integers in the strict order
    all < trace < debug < info < warning < error < critical < none, and
    every name known to [logging] other than "none"/"NONE" stands for an
    integer strictly below that of "none". *)
Theorem level_order (p : platform) :
  exists a t d i w e c n,
    level_value p "all" = Some a /\ level_value p "trace" = Some t /\
    level_value p "debug" = Some d /\ level_value p "info" = Some i /\
    level_value p "warning" = Some w /\ level_value p "error" = Some e /\
    level_value p "critical" = Some c /\ level_value p "none" = Some n /\
    a < t /\ t < d /\ d < i /\ i < w /\ w < e /\ e < c /\ c < n /\
    n = NONE p /\
    map_Forall
      (fun levelName v => levelName <> "none" -> levelName <> "NONE" -> v < n)
      (nameToLevel (tables (registered p))).
Proof.
  exists ALL, TRACE, DEBUG, INFO, WARNING, ERROR, CRITICAL, (NONE p).
  assert (Hbound : 50 < NONE p) by (destruct p; reflexivity).
  split; [destruct p; vm_compute; reflexivity|].
  split; [destruct p; vm_compute; reflexivity|].
  split; [destruct p; vm_compute; reflexivity|].
  split; [destruct p; vm_compute; reflexivity|].
  split; [destruct p; vm_compute; reflexivity|].
  split; [destruct p; vm_compute; reflexivity|].
  split; [destruct p; vm_compute; reflexivity|].
  split; [destruct p; vm_compute; reflexivity|].
  unfold ALL, TRACE, DEBUG, INFO, WARNING, ERROR, CRITICAL in *.
  do 7 (split; [lia|]).
  split; [reflexivity|].
  eapply bool_decide_eq_true_1.
  destruct p; vm_compute; reflexivity.
Qed.

(** ** Strings *)

Lemma char_lower_idem (c : ascii) : PyStr.char_lower (PyStr.char_lower c) = PyStr.char_lower c.
Proof. destruct c as [[] [] [] [] [] [] [] []]; reflexivity. Qed.

Lemma lower_idem (s : string) : PyStr.lower (PyStr.lower s) = PyStr.lower s.
Proof.
  induction s as [|c s IH]; simpl; [reflexivity|].
  rewrite char_lower_idem, IH. reflexivity.
Qed.

Lemma char_lower_not_upper (c : ascii) : PyStr.is_ascii_upper (PyStr.char_lower c) = false.
Proof. destruct c as [[] [] [] [] [] [] [] []]; reflexivity. Qed.

Lemma startswith_app (old rest : string) : PyStr.startswith old (old ++ rest) = true.
Proof.
  induction old as [|a old IH]; simpl; [reflexivity|].
  rewrite Ascii.eqb_refl. exact IH.
Qed.

Lemma startswith_split (old s : string) :
  PyStr.startswith old s = true -> exists rest, s = old ++ rest.
Proof.
  revert s. induction old as [|a old IH]; intros s H.
  - exists s. reflexivity.
  - destruct s as [|b s]; simpl in H; [discriminate|].
    destruct (Ascii.eqb a b) eqn:E; [|discriminate].
    apply Ascii.eqb_eq in E. subst b.
    destruct (IH s H) as [rest ->]. exists rest. reflexivity.
Qed.

Lemma string_app_length (a b : string) :
  String.length (a ++ b) = (String.length a + String.length b)%nat.
Proof. induction a as [|c a IH]; simpl; [reflexivity|]. rewrite IH. reflexivity. Qed.

Lemma string_app_inv_head (a b c : string) : a ++ b = a ++ c -> b = c.
Proof.
  induction a as [|x a IH]; simpl; intros H; [exact H|].
  injection H as H. exact (IH H).
Qed.

Lemma replace_aux_skip (old u rest : string) :
  PyStr.replace_aux old (String.length u) (u ++ rest) = PyStr.replace_aux old O rest.
Proof. induction u as [|c u IH]; simpl; [reflexivity|exact IH]. Qed.

Lemma replace_aux_match (old rest : string) :
  old <> "" ->
  PyStr.replace_aux old O (old ++ rest) = PyStr.replace_aux old O rest.
Proof.
  intros Hne. destruct old as [|a old]; [congruence|].
  change (String a old ++ rest) with (String a (old ++ rest)).
  cbn [PyStr.replace_aux].
  change (String a (old ++ rest)) with (String a old ++ rest).
  rewrite startswith_app. simpl. apply replace_aux_skip.
Qed.

(** [str.replace(old, "")] is the left-to-right pass [drops_all]. *)
Lemma replace_drops_all (old s : string) :
  old <> "" -> drops_all old s (PyStr.replace_with_empty old s).
Proof.
  intros Hne.
  assert (E : PyStr.replace_with_empty old s = PyStr.replace_aux old O s)
    by (destruct old; [congruence|reflexivity]).
  rewrite E. clear E.
  remember (String.length s) as n eqn:Hn.
  revert s Hn. induction n as [n IH] using lt_wf_ind. intros s Hn.
  destruct s as [|c s]; [constructor|].
  destruct (PyStr.startswith old (String c s)) eqn:Hs.
  - destruct (startswith_split _ _ Hs) as [rest Hrest].
    rewrite Hrest, replace_aux_match by exact Hne.
    apply drops_here.
    apply (IH (String.length rest)); [|reflexivity].
    subst n. rewrite Hrest, string_app_length.
    destruct old; [congruence|simpl; lia].
  - cbn [PyStr.replace_aux]. rewrite Hs.
    apply drops_keep; [exact Hs|].
    apply (IH (String.length s)); [subst n; simpl; lia|reflexivity].
Qed.

(** The pass has one outcome. *)
Lemma drops_all_functional (old s o1 o2 : string) :
  old <> "" -> drops_all old s o1 -> drops_all old s o2 -> o1 = o2.
Proof.
  intros Hne H1. revert o2.
  induction H1 as [|rest out H1 IH|c s out Hs H1 IH]; intros o2 H2.
  - inversion H2 as [|rest' out' H' E|]; [reflexivity|].
    destruct old; [congruence|discriminate].
  - remember (old ++ rest) as t eqn:Ht.
    destruct H2 as [|rest' out' H'|c' s' out' Hs' H'].
    + destruct old; [congruence|discriminate].
    + apply string_app_inv_head in Ht. subst rest'. exact (IH _ H').
    + rewrite Ht, startswith_app in Hs'. discriminate.
  - remember (String c s) as t eqn:Ht.
    destruct H2 as [|rest' out' H'|c' s' out' Hs' H'].
    + discriminate.
    + rewrite startswith_app in Hs. discriminate.
    + injection Ht as -> ->. f_equal. exact (IH _ H').
Qed.

Lemma base_dot_nonempty (b : string) : b ++ "." <> "".
Proof. destruct b; discriminate. Qed.

Lemma strip_bases_strips (bases : list string) (nm : string) :
  strips bases nm (strip_bases bases nm).
Proof.
  revert nm. induction bases as [|b bs IH]; intros nm; [constructor|].
  apply strips_next with (n1 := PyStr.replace_with_empty (b ++ ".") nm).
  - apply replace_drops_all, base_dot_nonempty.
  - exact (IH _).
Qed.

Lemma lower_no_upper (s : string) :
  PyStr.all_chars (fun c => negb (PyStr.is_ascii_upper c)) (PyStr.lower s) = true.
Proof.
  induction s as [|c s IH]; simpl; [reflexivity|].
  rewrite char_lower_not_upper, IH. reflexivity.
Qed.

Lemma strips_functional (bases : list string) (nm o1 o2 : string) :
  strips bases nm o1 -> strips bases nm o2 -> o1 = o2.
Proof.
  intros H1. revert o2.
  induction H1 as [n|b bs n n1 n2 Hd H1 IH]; intros o2 H2; inversion H2; subst.
  - reflexivity.
  - match goal with
    | Hd' : drops_all (b ++ ".") n ?m |- _ =>
        assert (n1 = m) by
          exact (drops_all_functional _ _ _ _ (base_dot_nonempty b) Hd Hd');
        subst m
    end.
    apply IH. assumption.
Qed.

(** ** The formatter *)

Example default_formatter_init :
  StringFormatter_init sample_env Py64 0 FORMAT_BASE (Some FORMAT_DATE) (Some REMOVE_BASE)
  = Return default_formatter.
Proof. vm_compute. reflexivity. Qed.

(** An empty format stands for "{message}"; a format may name attributes
    the interpreter gives a record; a format without fields, or with a
    field no record has, is refused. *)
Example formats_the_formatter_takes :
  StringFormatter_init sample_env Py64 0 [] (Some FORMAT_DATE) None
  = Return {| fmt := [Field "message"]; datefmt := Some FORMAT_DATE;
              _remove_base := []; _usesTime := false |}
  /\ is_Return (StringFormatter_init sample_env Py64 0
                  [Field "threadName"; Lit " "; Field "created"; Lit " "; Field "msg"]
                  None None) = true
  /\ is_Return (StringFormatter_init sample_env Py64 0
                  [Field "asctime"; Lit " "; Field "message"] None None) = true
  /\ is_Return (StringFormatter_init sample_env Py64 0 [Lit "no fields"] None None)
     = false
  /\ is_Return (StringFormatter_init sample_env Py64 0 [Field "nosuch"] None None)
     = false.
Proof. vm_compute. repeat split. Qed.

Example format_sample :
  snd (format sample_env default_formatter (sample_record "streamlink.plugin.foo"))
  = Return "[plugin.foo][info] hello".
Proof. vm_compute. reflexivity. Qed.

Lemma Formatter_format_frame (env : environment) (self : StringFormatter) (r : LogRecord) :
  let r' := fst (Formatter_format env self r) in
  name r' = name r /\ levelname r' = levelname r /\ same_payload r r'.
Proof.
  unfold Formatter_format, same_payload.
  destruct (getMessage env r) as [m|e]; [|cbn; tauto].
  destruct (_usesTime self);
    match goal with
    | |- context [style_format ?v ?t ?x] => destruct (style_format v t x) as [out|e]
    end;
    cbn; try tauto;
    destruct (exc_info r) as [tb|] eqn:Hexc; cbn; try tauto;
    match goal with
    | |- context [if ?b then _ else _] => destruct b
    end; cbn; tauto.
Qed.

Lemma format_fields_frame (env : environment) (self : StringFormatter) (r : LogRecord) :
  same_payload r (format_fields env self r).
Proof. unfold same_payload. cbn. tauto. Qed.

Lemma format_name_levelname (env : environment) (self : StringFormatter) (r : LogRecord) :
  name (fst (format env self r)) = strip_bases (_remove_base self) (name r)
  /\ levelname (fst (format env self r)) = str_lower env (levelname r).
Proof.
  unfold format.
  destruct (Formatter_format_frame env self (format_fields env self r)) as (Hn & Hl & _).
  cbn zeta in Hn, Hl. rewrite Hn, Hl. split; reflexivity.
Qed.

Lemma char_lower_ascii (c : ascii) :
  PyStr.char_is_ascii c = true -> PyStr.char_is_ascii (PyStr.char_lower c) = true.
Proof.
  destruct c as [[] [] [] [] [] [] [] []]; vm_compute; intros H;
    first [reflexivity | discriminate H].
Qed.

Lemma lower_ascii (s : string) :
  PyStr.is_ascii s = true -> PyStr.is_ascii (PyStr.lower s) = true.
Proof.
  unfold PyStr.is_ascii. induction s as [|c s IH]; [reflexivity|].
  cbn [PyStr.lower PyStr.all_chars].
  intros H. apply andb_prop in H as [Hc Hs].
  rewrite (char_lower_ascii c Hc), (IH Hs). reflexivity.
Qed.

(** On ASCII text [str.lower()] is the ASCII lower-casing, and doing it
    again changes nothing. *)
Lemma str_lower_ascii (env : environment) (s : string) :
  PyStr.is_ascii s = true ->
  str_lower env s = PyStr.lower s
  /\ str_lower env (str_lower env s) = str_lower env s.
Proof.
  intros H. unfold str_lower. rewrite H, (lower_ascii s H), lower_idem.
  split; reflexivity.
Qed.

(** C4, as the code has it: rendering assigns to the record.  [name]
    becomes the name with the configured bases removed and [levelname]
    what [str.lower()] makes of it; [msg], [args], [levelno], [pathname],
    [filename], [module], [exc_info], [stack_info], [lineno], [funcName]
    and [created] keep their values, also through a second rendering.  For
    an ASCII level name the new [levelname] is its ASCII lower-casing, and
    a second rendering leaves it as the first one left it. *)
Theorem format_assigns_name_and_levelname
    (env : environment) (self : StringFormatter) (record : LogRecord) :
  let once := fst (format env self record) in
  let twice := fst (format env self once) in
  name once = strip_bases (_remove_base self) (name record)
  /\ levelname once = str_lower env (levelname record)
  /\ same_payload record once
  /\ same_payload record twice
  /\ (PyStr.is_ascii (levelname record) = true ->
      levelname once = PyStr.lower (levelname record)
      /\ levelname twice = levelname once).
Proof.
  cbn zeta.
  destruct (format_name_levelname env self record) as [Hn Hl].
  destruct (format_name_levelname env self (fst (format env self record))) as [Hn2 Hl2].
  assert (F1 : same_payload record (fst (format env self record))).
  { unfold format.
    destruct (Formatter_format_frame env self (format_fields env self record))
      as (_ & _ & F).
    cbn zeta in F. unfold same_payload in *. cbn in *. tauto. }
  assert (F2 : same_payload (fst (format env self record))
                 (fst (format env self (fst (format env self record))))).
  { unfold format at 1 3.
    destruct (Formatter_format_frame env self
                (format_fields env self (fst (format env self record)))) as (_ & _ & F).
    cbn zeta in F. unfold same_payload in *. cbn in *. tauto. }
  split; [exact Hn|].
  split; [exact Hl|].
  split; [exact F1|].
  split.
  { unfold same_payload in *.
    destruct F1 as (?&?&?&?&?&?&?&?&?&?&?), F2 as (?&?&?&?&?&?&?&?&?&?&?).
    repeat split; congruence. }
  intros Hascii. destruct (str_lower_ascii env _ Hascii) as [E1 E2].
  split; [rewrite Hl; exact E1|].
  rewrite Hl2, Hl. exact E2.
Qed.

Lemma format_assigns_name_and_levelname_witness :
  let w := sample_warning_record None in
  let once := fst (format sample_env default_formatter w) in
  levelname once = "userwarning"
  /\ levelname (fst (format sample_env default_formatter once)) = levelname once.
Proof.
  cbn zeta.
  destruct (format_assigns_name_and_levelname sample_env default_formatter
              (sample_warning_record None)) as (_ & _ & _ & _ & Hascii).
  exact (Hascii eq_refl).
Defined.

(** C4 as stated fails: rendering changes [name] and [levelname], and a
    second rendering can change [name], and the rendered line, once more. *)
Lemma format_changes_the_record :
  (let r := sample_record "streamlink.plugin.foo" in
   name (fst (format sample_env default_formatter r)) <> name r)
  /\ (let w := sample_warning_record None in
      levelname (fst (format sample_env default_formatter w)) <> levelname w)
  /\ (let r := sample_record "streamstreamlink.link.x" in
      let once := format sample_env default_formatter r in
      let twice := format sample_env default_formatter (fst once) in
      name (fst twice) <> name (fst once) /\ snd twice <> snd once).
Proof. vm_compute. repeat split; discriminate. Qed.

(** C5, as the code has it: for every record and every list of bases,
    rendering runs one left-to-right pass per base, in list order, that
    drops every occurrence of the base followed by "." wherever it stands
    in the name (at the start or further in); [levelname] becomes what
    [str.lower()] makes of it, which for an ASCII level name is its
    lower-casing, without uppercase letters; bases ["streamlink"] turn
    "streamlink.plugin.foo" into "plugin.foo". *)
Theorem format_strips_every_occurrence
    (env : environment) (self : StringFormatter) (record : LogRecord) :
  let rendered := fst (format env self record) in
  strips (_remove_base self) (name record) (name rendered)
  /\ (forall out, strips (_remove_base self) (name record) out -> out = name rendered)
  /\ levelname rendered = str_lower env (levelname record)
  /\ (PyStr.is_ascii (levelname record) = true ->
      levelname rendered = PyStr.lower (levelname record)
      /\ PyStr.all_chars (fun c => negb (PyStr.is_ascii_upper c)) (levelname rendered)
         = true)
  /\ (_remove_base self = ["streamlink"] ->
      name record = "streamlink.plugin.foo" -> name rendered = "plugin.foo").
Proof.
  cbn zeta.
  destruct (format_name_levelname env self record) as [Hn Hl].
  rewrite Hn, Hl.
  split; [apply strip_bases_strips|].
  split; [intros out H; exact (strips_functional _ _ _ _ H (strip_bases_strips _ _))|].
  split; [reflexivity|].
  split.
  { intros Hascii. destruct (str_lower_ascii env _ Hascii) as [E _].
    rewrite E. split; [reflexivity|apply lower_no_upper]. }
  intros -> ->. reflexivity.
Qed.

Lemma format_strips_every_occurrence_witness :
  let rendered :=
    fst (format sample_env streamlink_formatter (sample_record "streamlink.plugin.foo")) in
  name rendered = "plugin.foo"
  /\ strip_bases ["streamlink"] "streamlink.plugin.foo" = name rendered
  /\ levelname rendered = "info".
Proof.
  cbn zeta.
  destruct (format_strips_every_occurrence sample_env streamlink_formatter
              (sample_record "streamlink.plugin.foo")) as (_ & Honly & _ & Hlow & Hex).
  split; [|split].
  - exact (Hex eq_refl eq_refl).
  - apply Honly. exact (strip_bases_strips ["streamlink"] "streamlink.plugin.foo").
  - destruct (Hlow eq_refl) as [E _]. exact E.
Defined.

(** C5 as stated fails: a base is removed from the middle of a name that
    does not start with it, where cutting at the start alone would have
    left the name as it was. *)
Lemma format_strips_inside_the_name :
  let r := sample_record "plugin.streamlink.foo" in
  let rendered := fst (format sample_env streamlink_formatter r) in
  PyStr.startswith "streamlink." (name r) = false
  /\ name rendered = "plugin.foo"
  /\ strip_leading_bases (_remove_base streamlink_formatter) (name r) = name r
  /\ name rendered <> strip_leading_bases (_remove_base streamlink_formatter) (name r).
Proof. vm_compute. repeat split; discriminate. Qed.

(** ** Batch logging *)

(** One [next] of the generator under [collect], with the rest of the run
    left folded. *)
Ltac gen_step := cbn [collect]; cbn -[collect].

Section IterFacts.
Context (env : environment) (p : platform).
Context (self : Logger) (level : Z) (call_args : list string) (site : call_site).

Abbreviation drain := (collect env p self level call_args site).
Abbreviation record_of := (iter_record env p self level call_args site).

(** Draining [yield from] over an iterator: the [for] loop that follows
    finds the same iterator, by then exhausted. *)
Lemma collect_yield_from_iterator (pending : list string) (eff : effects) (fuel : nat) :
  (length pending < fuel)%nat ->
  drain fuel {| at_position := InYieldFrom Itself;
                  messages := Iterator pending;
                  observed := eff |}
  = Some (pending,
          {| at_position := Finished; messages := Iterator []; observed := eff |}).
Proof.
  revert fuel. induction pending as [|x rest IH]; intros fuel Hlt.
  - destruct fuel as [|fuel]; [simpl in Hlt; lia|]. reflexivity.
  - destruct fuel as [|fuel]; [simpl in Hlt; lia|].
    gen_step.
    rewrite IH by (simpl in Hlt; lia). reflexivity.
Qed.

(** The [for] loop over any iterator logs each item, then yields it. *)
Lemma collect_for_loop (c : cursor) (m : iterable) (rest : list string)
    (eff : effects) (fuel : nat) :
  (c = Itself /\ m = Iterator rest) \/ (c = Fresh rest /\ exists items, m = Container items) ->
  (length rest < fuel)%nat ->
  exists m',
    drain fuel {| at_position := InForLoop c; messages := m; observed := eff |}
    = Some (rest,
            {| at_position := Finished;
               messages := m';
               observed := {| enabled_checks := enabled_checks eff;
                              made_records := made_records eff ++ map record_of rest |} |})
    /\ (forall items, m = Container items -> m' = m)
    /\ (forall l, m = Iterator l -> m' = Iterator []).
Proof.
  revert c m eff fuel. induction rest as [|x rest IH]; intros c m eff fuel Hc Hlt.
  - destruct fuel as [|fuel]; [simpl in Hlt; lia|].
    exists m. rewrite app_nil_r.
    destruct Hc as [[-> ->]|[-> [items ->]]]; destruct eff; cbn;
      (split; [reflexivity|split; [intros; reflexivity|intros; congruence]]).
  - destruct fuel as [|fuel]; [simpl in Hlt; lia|].
    destruct Hc as [[-> ->]|[-> [items ->]]].
    + destruct (IH Itself (Iterator rest)
                  (_log env p self call_args site level (MsgText x) eff) fuel)
        as (m' & E & Hk & Hi); [left; split; reflexivity|simpl in Hlt; lia|].
      exists m'. gen_step.
      cbn -[collect] in E. rewrite E.
      split; [|split; [intros; congruence|intros l _; exact (Hi rest eq_refl)]].
      cbn. rewrite <- app_assoc. reflexivity.
    + destruct (IH (Fresh rest) (Container items)
                  (_log env p self call_args site level (MsgText x) eff) fuel)
        as (m' & E & Hk & Hi); [right; split; [reflexivity|eauto]|simpl in Hlt; lia|].
      exists m'. gen_step.
      cbn -[collect] in E. rewrite E.
      split; [|split; [intros its _; exact (Hk items eq_refl)|intros; congruence]].
      cbn. rewrite <- app_assoc. reflexivity.
Qed.

(** X23: on a logger that is not enabled for [level], consuming
    [iter(level, messages)] for an iterator [messages] yields the items
    of [messages], each as it is and in order, and then stops; no record
    is built and the level was checked once.  (The [for] loop that the
    body falls into after [yield from] finds the iterator exhausted.) *)
Theorem iter_disabled_passes_items_through (pending : list string) (fuel : nat) :
  isEnabledFor self level = false ->
  (length pending < fuel)%nat ->
  drain fuel (iter (Iterator pending) no_effects)
  = Some (pending,
          {| at_position := Finished;
             messages := Iterator [];
             observed := {| enabled_checks := 1; made_records := [] |} |}).
Proof.
  intros Hoff Hlt.
  destruct fuel as [|fuel]; [lia|].
  destruct pending as [|x rest].
  - cbn. rewrite Hoff. reflexivity.
  - cbn [collect]; unfold gen_next, iter; cbn -[collect].
    rewrite Hoff. cbn -[collect].
    rewrite collect_yield_from_iterator by (simpl in Hlt; lia).
    reflexivity.
Qed.

(** The other half of the docstring: when the logger is enabled, each
    item is logged and yielded, in order, after one check. *)
Lemma iter_enabled_logs_each_item (pending : list string) (fuel : nat) :
  isEnabledFor self level = true ->
  (length pending < fuel)%nat ->
  drain fuel (iter (Iterator pending) no_effects)
  = Some (pending,
          {| at_position := Finished;
             messages := Iterator [];
             observed := {| enabled_checks := 1;
                            made_records := map record_of pending |} |}).
Proof.
  intros Hon Hlt.
  destruct fuel as [|fuel]; [lia|].
  destruct pending as [|x rest].
  - cbn. rewrite Hon. reflexivity.
  - cbn [collect]; unfold gen_next, iter; cbn -[collect].
    rewrite Hon. cbn -[collect].
    destruct (collect_for_loop Itself (Iterator rest) rest
                (_log env p self call_args site level (MsgText x)
                   (count_check no_effects)) fuel)
      as (m' & E & _ & Hi); [left; split; reflexivity|simpl in Hlt; lia|].
    cbn -[collect] in E. rewrite E.
    rewrite (Hi rest eq_refl). reflexivity.
Qed.

End IterFacts.

Lemma iter_disabled_passes_items_through_witness :
  collect sample_env Py64 (root (initial_state (Other_showwarning 0))) DEBUG []
    sample_site 3 (iter (Iterator ["a"; "b"]) no_effects)
  = Some (["a"; "b"],
          {| at_position := Finished;
             messages := Iterator [];
             observed := {| enabled_checks := 1; made_records := [] |} |}).
Proof.
  apply (iter_disabled_passes_items_through sample_env Py64
           (root (initial_state (Other_showwarning 0))) DEBUG [] sample_site
           ["a"; "b"] 3).
  - reflexivity.
  - simpl. lia.
Defined.


(** ** Warning capture *)

Lemma capturewarnings_on_when_on (st : module_state) :
  _showwarning_default st <> None -> capturewarnings true st = st.
Proof.
  intros H. unfold capturewarnings.
  destruct (_showwarning_default st); [reflexivity|congruence].
Qed.

Lemma capturewarnings_off_when_off (st : module_state) :
  _showwarning_default st = None -> capturewarnings false st = st.
Proof. intros H. unfold capturewarnings. rewrite H. reflexivity. Qed.

(** C7: enabling while capture is on and disabling while it is off leave
    the state as it is, so either call repeated is the call made once; and
    from a state where capture is off, two enables and one disable give
    back that state, [warnings.showwarning] being the hook that was there
    before the first enable. *)
Theorem capturewarnings_idempotent (st : module_state) :
  (_showwarning_default st <> None -> capturewarnings true st = st)
  /\ (_showwarning_default st = None -> capturewarnings false st = st)
  /\ capturewarnings true (capturewarnings true st) = capturewarnings true st
  /\ capturewarnings false (capturewarnings false st) = capturewarnings false st
  /\ (_showwarning_default st = None ->
      let on := capturewarnings true (capturewarnings true st) in
      warnings_showwarning on = This_showwarning
      /\ _showwarning_default on = Some (warnings_showwarning st)
      /\ warnings_showwarning (capturewarnings false on) = warnings_showwarning st
      /\ capturewarnings false on = st).
Proof.
  split; [apply capturewarnings_on_when_on|].
  split; [apply capturewarnings_off_when_off|].
  split.
  { apply capturewarnings_on_when_on.
    unfold capturewarnings. destruct (_showwarning_default st) eqn:E; cbn; congruence. }
  split.
  { apply capturewarnings_off_when_off.
    unfold capturewarnings. destruct (_showwarning_default st) eqn:E; cbn; congruence. }
  intros Hoff. destruct st as [r shown dflt nid]. cbn in Hoff. subst dflt.
  cbn. repeat split.
Qed.

Lemma capturewarnings_idempotent_witness :
  let off := initial_state (Other_showwarning 7) in
  let on := capturewarnings true off in
  capturewarnings true on = on
  /\ capturewarnings false off = off
  /\ capturewarnings false (capturewarnings true (capturewarnings true off)) = off.
Proof.
  cbn zeta.
  destruct (capturewarnings_idempotent
              (capturewarnings true (initial_state (Other_showwarning 7)))) as [Hon _].
  destruct (capturewarnings_idempotent (initial_state (Other_showwarning 7)))
    as (_ & Hoff & _ & _ & Hback).
  split; [apply Hon; discriminate|].
  split; [apply Hoff; reflexivity|].
  apply Hback. reflexivity.
Defined.

(** ** Warning records *)

Example StreamlinkDeprecationWarning_is_internal :
  issubclass StreamlinkDeprecationWarning StreamlinkWarning = true
  /\ issubclass DeprecationWarning StreamlinkWarning = false.
Proof. split; reflexivity. Qed.

(** C8: the message of a warning record is the warning text alone when
    the category is [StreamlinkWarning] or derives from it; otherwise it is
    the text, a line break, two blanks, the warning's file path, a colon
    and its line number.  Without a category the message is still produced
    (the second form) and the level name is "UserWarning". *)
Theorem warning_record_message
    (env : environment) (p : platform) (ct : Z) (nm : string) (level : Z) (fn : string)
    (lno : Z) (w : WarningMessage) (a : list string) (ei func sinfo : option string) :
  let r := _log_record_factory env p ct nm level fn lno (MsgWarning w) a ei func sinfo in
  let located :=
    wm_message w ++ String "010" "  " ++ wm_filename w ++ ":"
      ++ PyStr.str_of_int (wm_lineno w) in
  (forall c, wm_category w = Some c -> issubclass c StreamlinkWarning = true ->
     getMessage env r = Return (wm_message w))
  /\ (forall c, wm_category w = Some c -> issubclass c StreamlinkWarning = false ->
        getMessage env r = Return located)
  /\ (forall c, wm_category w = Some c -> levelname r = cls_name c)
  /\ (wm_category w = None ->
        getMessage env r = Return located /\ levelname r = "UserWarning")
  /\ name r = "warnings" /\ pathname r = wm_filename w /\ lineno r = wm_lineno w.
Proof.
  cbn zeta. unfold getMessage. cbn. unfold WarningLogRecord_getMessage.
  split; [intros c -> ->; reflexivity|].
  split; [intros c -> ->; reflexivity|].
  split; [intros c ->; reflexivity|].
  split; [intros ->; split; reflexivity|].
  repeat split.
Qed.

Lemma warning_record_message_witness :
  getMessage sample_env (sample_warning_record (Some StreamlinkDeprecationWarning))
  = Return "old API"
  /\ getMessage sample_env (sample_warning_record (Some DeprecationWarning))
     = Return ("old API" ++ String "010" "  /app/plugin.py:7")
  /\ levelname (sample_warning_record (Some DeprecationWarning)) = "DeprecationWarning"
  /\ getMessage sample_env (sample_warning_record None)
     = Return ("old API" ++ String "010" "  /app/plugin.py:7")
  /\ levelname (sample_warning_record None) = "UserWarning".
Proof.
  destruct (warning_record_message sample_env Py64 0 "streamlink" WARNING "logger.py" 188
              (sample_warning (Some StreamlinkDeprecationWarning)) [] None None None)
    as (Hown & _).
  destruct (warning_record_message sample_env Py64 0 "streamlink" WARNING "logger.py" 188
              (sample_warning (Some DeprecationWarning)) [] None None None)
    as (_ & Hother & Hname & _).
  destruct (warning_record_message sample_env Py64 0 "streamlink" WARNING "logger.py" 188
              (sample_warning None) [] None None None)
    as (_ & _ & _ & Hnone & _).
  split; [exact (Hown StreamlinkDeprecationWarning eq_refl eq_refl)|].
  split; [exact (Hother DeprecationWarning eq_refl eq_refl)|].
  split; [exact (Hname DeprecationWarning eq_refl)|].
  exact (Hnone eq_refl).
Defined.

(** ** The stream handler *)

Example BrokenPipeError_is_OSError : isinstance broken_pipe OSError = true.
Proof. reflexivity. Qed.

(** C9: when the stream's [flush] raises an [OSError] (a broken pipe is
    one), [StreamHandler.flush] returns normally. *)
Theorem flush_swallows_OSError (s : pystream) (e : exn) :
  stream_flush s = Some (Raise e) ->
  isinstance e OSError = true ->
  StreamHandler_flush s = Return tt.
Proof.
  intros Hflush Hos. unfold StreamHandler_flush, logging_StreamHandler_flush.
  rewrite Hflush, Hos. reflexivity.
Qed.

Lemma flush_swallows_OSError_witness :
  StreamHandler_flush (sample_stream 1 (Raise broken_pipe)) = Return tt.
Proof.
  apply (flush_swallows_OSError (sample_stream 1 (Raise broken_pipe)) broken_pipe);
    reflexivity.
Defined.

(** What [flush] does in the other cases: nothing to add when the stream
    flushes; any exception that is not an [OSError] goes on to the caller. *)
Lemma flush_other_cases (s : pystream) :
  (stream_flush s = Some (Return tt) \/ stream_flush s = None ->
     StreamHandler_flush s = Return tt)
  /\ (forall e, stream_flush s = Some (Raise e) -> isinstance e OSError = false ->
        StreamHandler_flush s = Raise e).
Proof.
  unfold StreamHandler_flush, logging_StreamHandler_flush. split.
  - intros [-> | ->]; reflexivity.
  - intros e -> ->. reflexivity.
Qed.

(** ** The record factory *)

(** C10: for a message that is not a [WarningMessage] the factory returns
    what the default factory returns for [func=None] and [sinfo=None],
    whatever [func] and [sinfo] it was given: the record has neither
    function name nor stack info. *)
Theorem factory_drops_func_and_sinfo
    (env : environment) (p : platform) (ct : Z) (nm : string) (level : Z) (fn : string)
    (lno : Z) (text : string) (a : list string) (ei func sinfo : option string) :
  let r := _log_record_factory env p ct nm level fn lno (MsgText text) a ei func sinfo in
  r = _log_record_factory_default env p ct nm level fn lno (MsgText text) a ei None None
  /\ r = _log_record_factory env p ct nm level fn lno (MsgText text) a ei None None
  /\ funcName r = None
  /\ stack_info r = None.
Proof. cbn. repeat split. Qed.

(** A warning record, by contrast, keeps both. *)
Lemma factory_keeps_func_for_warnings
    (env : environment) (p : platform) (ct : Z) (nm : string) (level : Z) (fn : string)
    (lno : Z) (w : WarningMessage) (a : list string) (ei func sinfo : option string) :
  let r := _log_record_factory env p ct nm level fn lno (MsgWarning w) a ei func sinfo in
  funcName r = func /\ stack_info r = sinfo.
Proof. cbn. split; reflexivity. Qed.

(** ** Configuration *)











(** * Further properties *)

(** ** Batch logging, beyond the disabled case *)

Lemma iter_enabled_logs_each_item_witness :
  collect sample_env Py64 (root (initial_state (Other_showwarning 0))) ERROR []
    sample_site 3 (iter (Iterator ["a"; "b"]) no_effects)
  = Some (["a"; "b"],
          {| at_position := Finished;
             messages := Iterator [];
             observed :=
               {| enabled_checks := 1;
                  made_records :=
                    map (iter_record sample_env Py64
                           (root (initial_state (Other_showwarning 0))) ERROR []
                           sample_site) ["a"; "b"] |} |}).
Proof.
  apply (iter_enabled_logs_each_item sample_env Py64
           (root (initial_state (Other_showwarning 0))) ERROR [] sample_site
           ["a"; "b"] 3).
  - reflexivity.
  - simpl. lia.
Defined.

Section IterMore.
Context (env : environment) (p : platform).
Context (self : Logger) (level : Z) (call_args : list string) (site : call_site).

Abbreviation drain' := (collect env p self level call_args site).
Abbreviation next' := (gen_next env p self level call_args site).
Abbreviation record_of' := (iter_record env p self level call_args site).

(** X2: Each [next] takes exactly the next item off the iterator and yields
    it: nothing is read ahead.  When [next] reports the end, the iterator
    is exhausted (or the generator had finished before). *)
Theorem gen_next_takes_one_item (g g' : generator) (l : list string) :
  on_iterator g = true ->
  messages g = Iterator l ->
  (forall x, next' g = (Some x, g') ->
     l = x :: pending_of g' /\ messages g' = Iterator (pending_of g')
     /\ on_iterator g' = true)
  /\ (next' g = (None, g') -> at_position g = Finished \/ l = []).
Proof.
  intros Hon Hm. destruct g as [pos m eff]. cbn in Hon, Hm. subst m.
  unfold gen_next. cbn [at_position messages observed].
  destruct pos as [|c|c|]; try (destruct c; [|discriminate]).
  - destruct (negb (isEnabledFor self level)); destruct l as [|y l]; cbn;
      (split; [intros x E; inversion E; subst; cbn; auto|intros E; inversion E; auto]).
  - destruct l as [|y l]; cbn;
      (split; [intros x E; inversion E; subst; cbn; auto|intros E; inversion E; auto]).
  - destruct l as [|y l]; cbn;
      (split; [intros x E; inversion E; subst; cbn; auto|intros E; inversion E; auto]).
  - cbn. split; [intros x E; discriminate|auto].
Qed.

Lemma collect_yield_from_container (rest items : list string) (eff : effects)
    (fuel : nat) :
  (length rest + length items < fuel)%nat ->
  drain' fuel {| at_position := InYieldFrom (Fresh rest);
                 messages := Container items;
                 observed := eff |}
  = Some ((rest ++ items)%list,
          {| at_position := Finished;
             messages := Container items;
             observed := {| enabled_checks := enabled_checks eff;
                            made_records :=
                              (made_records eff ++ map record_of' items)%list |} |}).
Proof.
  revert fuel. induction rest as [|x rest IH]; intros fuel Hlt.
  - destruct (collect_for_loop env p self level call_args site
                (Fresh items) (Container items) items eff fuel)
      as (m' & E & Hk & _); [right; eauto|simpl in Hlt; lia|].
    rewrite (Hk items eq_refl) in E. rewrite app_nil_l, <- E.
    destruct fuel as [|fuel]; reflexivity.
  - destruct fuel as [|fuel]; [simpl in Hlt; lia|].
    gen_step. rewrite IH by (simpl in Hlt; lia). reflexivity.
Qed.

(** X3: Given a list instead of an iterator, a logger that is not enabled
    yields every item twice, first the whole list unlogged and then the
    whole list again with one record built per item: the [for] loop after
    [yield from] starts over on the list. *)
Theorem iter_disabled_list_runs_twice (items : list string) (fuel : nat) :
  isEnabledFor self level = false ->
  (2 * length items < fuel)%nat ->
  drain' fuel (iter (Container items) no_effects)
  = Some ((items ++ items)%list,
          {| at_position := Finished;
             messages := Container items;
             observed := {| enabled_checks := 1;
                            made_records := map record_of' items |} |}).
Proof.
  intros Hoff Hlt.
  pose proof (collect_yield_from_container items items (count_check no_effects) fuel) as E.
  assert (Hroom : (length items + length items < fuel)%nat) by lia.
  specialize (E Hroom). cbn -[collect] in E. rewrite <- E.
  destruct fuel as [|fuel]; [lia|].
  cbn [collect]. unfold gen_next, iter. cbn -[collect]. rewrite Hoff. reflexivity.
Qed.

End IterMore.

Lemma gen_next_takes_one_item_witness :
  let g := iter (Iterator ["a"; "b"]) no_effects in
  let g' := snd (gen_next sample_env Py64 (root (initial_state (Other_showwarning 0)))
                   DEBUG [] sample_site g) in
  ["a"; "b"] = "a" :: pending_of g' /\ messages g' = Iterator (pending_of g').
Proof.
  cbn zeta.
  destruct (gen_next_takes_one_item sample_env Py64
              (root (initial_state (Other_showwarning 0))) DEBUG [] sample_site
              (iter (Iterator ["a"; "b"]) no_effects)
              (snd (gen_next sample_env Py64 (root (initial_state (Other_showwarning 0)))
                      DEBUG [] sample_site (iter (Iterator ["a"; "b"]) no_effects)))
              ["a"; "b"] eq_refl eq_refl) as [Hsome _].
  destruct (Hsome "a" eq_refl) as (H1 & H2 & _). split; assumption.
Defined.

Lemma iter_disabled_list_runs_twice_witness :
  exists g,
    collect sample_env Py64 (root (initial_state (Other_showwarning 0))) DEBUG []
      sample_site 5 (iter (Container ["a"; "b"]) no_effects)
    = Some (["a"; "b"; "a"; "b"], g)
    /\ length (made_records (observed g)) = 2%nat.
Proof.
  eexists. split.
  - apply (iter_disabled_list_runs_twice sample_env Py64
             (root (initial_state (Other_showwarning 0))) DEBUG [] sample_site
             ["a"; "b"] 5).
    + reflexivity.
    + simpl. lia.
  - reflexivity.
Defined.

(** ** The level tables after registration *)

(** X4: Registration round trip: each of the eight levels is named, by
    [getLevelName], with its lowercase name (the lowercase name is added
    after the uppercase one and wins), and both spellings of the name
    resolve to the level. *)
Theorem registered_names_round_trip (p : platform) :
  Forall (fun item =>
            getLevelName (tables (registered p)) (fst item) = snd item
            /\ level_value p (snd item) = Some (fst item)
            /\ level_value p (PyStr.upper (snd item)) = Some (fst item))
         (odict_items (_levelToNames p)).
Proof.
  destruct p.
  - let l := eval vm_compute in (odict_items (_levelToNames Py32)) in
    change (odict_items (_levelToNames Py32)) with l.
    repeat (constructor; [repeat split; vm_compute; reflexivity|]).
    constructor.
  - let l := eval vm_compute in (odict_items (_levelToNames Py64)) in
    change (odict_items (_levelToNames Py64)) with l.
    repeat (constructor; [repeat split; vm_compute; reflexivity|]).
    constructor.
Qed.

(** X5: Registration takes nothing away from [logging]: every name known
    before ("FATAL", "WARN", "NOTSET" and the uppercase standard names)
    still stands for the same integer. *)
Theorem registration_keeps_logging_names (p : platform) :
  map_Forall (fun levelName v => level_value p levelName = Some v)
    (nameToLevel logging_initial_tables).
Proof.
  eapply bool_decide_eq_true_1.
  destruct p; vm_compute; reflexivity.
Qed.

(** X6: Why "none" is [sys.maxsize] and not [NOTSET]: a logger set to [NONE]
    lets no level below [NONE] through, whatever its ancestors say, while
    a logger left at [NOTSET] below an ancestor at [WARNING] still lets
    warnings through. *)
Theorem none_level_disables_all (p : platform) (self : Logger) :
  (logger_level self = NONE p ->
   forall lvl, lvl < NONE p -> isEnabledFor self lvl = false)
  /\ (logger_level self = NOTSET ->
      logger_disabled self = false -> manager_disable self < WARNING ->
      forall rest, parent_levels self = WARNING :: rest ->
      isEnabledFor self WARNING = true).
Proof.
  unfold isEnabledFor, getEffectiveLevel. split.
  - intros Hl lvl Hlt. cbn [first_set_level]. rewrite Hl.
    assert (Hz : Z.eqb (NONE p) 0 = false) by (destruct p; reflexivity).
    rewrite Hz.
    destruct (logger_disabled self); [reflexivity|].
    destruct (Z.geb (manager_disable self) lvl); [reflexivity|].
    unfold Z.geb. destruct (Z.compare_spec lvl (NONE p)); [lia|reflexivity|lia].
  - intros Hl Hd Hm rest Hp. rewrite Hl, Hd, Hp. cbn.
    unfold Z.geb. destruct (Z.compare_spec (manager_disable self) WARNING);
      [lia|reflexivity|lia].
Qed.

Lemma none_level_disables_all_witness :
  isEnabledFor (set_logger_level (NONE Py64) (root (initial_state (Other_showwarning 0))))
    CRITICAL = false
  /\ isEnabledFor (set_logger_level NOTSET (root (initial_state (Other_showwarning 0))))
       WARNING = true.
Proof.
  destruct (none_level_disables_all Py64
              (set_logger_level (NONE Py64) (root (initial_state (Other_showwarning 0)))))
    as [Hnone _].
  destruct (none_level_disables_all Py64
              (set_logger_level NOTSET (root (initial_state (Other_showwarning 0)))))
    as [_ Hnotset].
  split.
  - apply Hnone; reflexivity.
  - apply (Hnotset eq_refl eq_refl eq_refl []). reflexivity.
Defined.

(** ** Rendering *)

Lemma string_app_nil_r (s : string) : s ++ "" = s.
Proof.
  induction s as [|c s IH]; [reflexivity|].
  change (String c (s ++ "") = String c s). rewrite IH. reflexivity.
Qed.

Lemma style_format_FORMAT_BASE (env : environment) (r : LogRecord) (m : string) :
  message r = Some m ->
  style_format env FORMAT_BASE r
  = Return ("[" ++ name r ++ "][" ++ levelname r ++ "] " ++ m).
Proof.
  intros Hm. destruct r. cbn in Hm. subst.
  cbn -[String.append]. rewrite string_app_nil_r. reflexivity.
Qed.

Lemma is_ascii_app (a b : string) :
  PyStr.is_ascii (a ++ b) = PyStr.is_ascii a && PyStr.is_ascii b.
Proof.
  unfold PyStr.is_ascii. induction a as [|c a IH]; [reflexivity|].
  change (String c a ++ b) with (String c (a ++ b)).
  cbn [PyStr.all_chars]. rewrite IH, andb_assoc. reflexivity.
Qed.

Lemma string_of_uint_ascii (d : Decimal.uint) :
  PyStr.is_ascii (NilEmpty.string_of_uint d) = true.
Proof. induction d; cbn; try reflexivity; exact IHd. Qed.

Lemma str_of_int_ascii (n : Z) : PyStr.is_ascii (PyStr.str_of_int n) = true.
Proof.
  unfold PyStr.str_of_int, NilZero.string_of_int, NilZero.string_of_uint.
  destruct (Z.to_int n) as [d|d]; destruct d;
    try reflexivity; try apply (string_of_uint_ascii (_ d));
    cbn [PyStr.is_ascii]; unfold PyStr.is_ascii; cbn [PyStr.all_chars];
    apply andb_true_intro; (split; [reflexivity|]);
    match goal with
    | |- PyStr.all_chars _ (NilEmpty.string_of_uint ?u) = true =>
        exact (string_of_uint_ascii u)
    end.
Qed.

(** Every level name the module's tables give is ASCII. *)
Lemma getLevelName_ascii (p : platform) (lvl : Z) :
  PyStr.is_ascii (getLevelName (tables (registered p)) lvl) = true.
Proof.
  unfold getLevelName.
  destruct (levelToName (tables (registered p)) !! lvl) as [n|] eqn:E.
  - assert (H : map_Forall (fun _ n => PyStr.is_ascii n = true)
                  (levelToName (tables (registered p)))).
    { eapply bool_decide_eq_true_1. destruct p; vm_compute; reflexivity. }
    exact (H lvl n E).
  - rewrite is_ascii_app, str_of_int_ascii. reflexivity.
Qed.

(** X8: The line the default format gives a record made by a logging call
    without arguments: the bracketed name (bases stripped), the bracketed
    lowercase level name and the text, followed on a new line by the
    traceback when there is one.  Neither the function name nor the stack
    info of the call can show: the factory has dropped both. *)
Theorem default_format_of_a_logged_message
    (env : environment) (p : platform) (ct : Z) (nm : string) (lvl : Z) (fn : string)
    (lno : Z) (text : string) (ei func sinfo : option string) :
  let r := _log_record_factory env p ct nm lvl fn lno (MsgText text) [] ei func sinfo in
  let line :=
    "[" ++ strip_bases REMOVE_BASE nm ++ "]["
      ++ PyStr.lower (getLevelName (tables (registered p)) lvl) ++ "] " ++ text in
  snd (format env default_formatter r)
  = Return match ei with
           | Some tb => if String.eqb tb "" then line else on_new_line line tb
           | None => line
           end.
Proof.
  cbn zeta.
  unfold _log_record_factory, _log_record_factory_default, LogRecord_init.
  unfold format, format_fields, Formatter_format, getMessage, LogRecord_getMessage.
  cbn -[String.append getLevelName registered strip_bases str_lower style_format
        FORMAT_BASE on_new_line].
  rewrite (style_format_FORMAT_BASE env _ text) by reflexivity.
  cbn -[String.append getLevelName registered strip_bases str_lower on_new_line].
  destruct (str_lower_ascii env _ (getLevelName_ascii p lvl)) as [-> _].
  destruct ei as [tb|]; cbn -[String.append getLevelName registered strip_bases
                               PyStr.lower on_new_line];
    [destruct (String.eqb tb "")|]; reflexivity.
Qed.

(** X9: When building the message fails (the arguments do not fit the
    message), [format] raises that exception after it has assigned to the
    record: [name] has its bases removed and [levelname] is what
    [str.lower()] makes of it, [message] is not set. *)
Theorem format_raises_after_assigning
    (env : environment) (self : StringFormatter) (r : LogRecord) (s : string) (e : exn) :
  msg r = MsgText s ->
  args r <> [] ->
  percent_format env s (args r) = Raise e ->
  format env self r = (format_fields env self r, Raise e)
  /\ name (fst (format env self r)) = strip_bases (_remove_base self) (name r)
  /\ levelname (fst (format env self r)) = str_lower env (levelname r)
  /\ message (fst (format env self r)) = message r.
Proof.
  intros Hmsg Hargs Hraise.
  assert (E : format env self r = (format_fields env self r, Raise e)).
  { unfold format, Formatter_format, getMessage.
    replace (msg (format_fields env self r)) with (msg r) by reflexivity.
    replace (args (format_fields env self r)) with (args r) by reflexivity.
    rewrite Hmsg. unfold LogRecord_getMessage.
    destruct (args r) as [|a rest]; [congruence|]. rewrite Hraise. reflexivity. }
  rewrite E. repeat split; reflexivity.
Qed.

Lemma format_raises_after_assigning_witness :
  let env :=
    {| os_path_basename := fun path => path;
       os_path_splitext_root := fun file => file;
       Path_name := fun path => path;
       Path_stem := fun path => path;
       local_strftime := fun _ pattern => pattern;
       percent_format := fun _ _ =>
         Raise {| exn_class := TypeError;
                  exn_text := "not all arguments converted during string formatting" |};
       open_file := fun _ _ => None;
       unicode_lower := unicode_lower sample_env;
       other_attr := other_attr sample_env |} in
  let r := _log_record_factory env Py64 0 "streamlink.cli" INFO "main.py" 3
             (MsgText "done") ["extra"] None None None in
  name (fst (format env default_formatter r)) = "cli"
  /\ message (fst (format env default_formatter r)) = None
  /\ is_Return (snd (format env default_formatter r)) = false.
Proof.
  cbn zeta.
  match goal with
  | |- context [format ?env default_formatter ?r] =>
      destruct (format_raises_after_assigning env default_formatter r "done"
                  {| exn_class := TypeError;
                     exn_text := "not all arguments converted during string formatting" |}
                  eq_refl ltac:(discriminate) eq_refl) as (E & Hn & _ & Hm)
  end.
  split; [exact Hn|]. split; [exact Hm|]. rewrite E. reflexivity.
Defined.

Lemma replace_without_occurrence (old s : string) :
  str_occurs old s = false -> PyStr.replace_with_empty old s = s.
Proof.
  intros H. destruct old as [|a old]; [reflexivity|].
  unfold PyStr.replace_with_empty.
  induction s as [|c s IH]; [reflexivity|].
  cbn [str_occurs] in H. apply orb_false_elim in H as [Hs Hrest].
  cbn [PyStr.replace_aux]. rewrite Hs, (IH Hrest). reflexivity.
Qed.

Lemma strip_bases_without_occurrence (bases : list string) (nm : string) :
  Forall (fun b => str_occurs (b ++ ".") nm = false) bases ->
  strip_bases bases nm = nm.
Proof.
  intros H. induction H as [|b bs Hb _ IH]; [reflexivity|].
  unfold strip_bases in *. cbn [fold_left].
  rewrite (replace_without_occurrence _ _ Hb). exact IH.
Qed.

(** X10: A logger name in which no base followed by "." occurs is rendered in
    full. *)
Theorem names_without_a_base_are_kept
    (env : environment) (self : StringFormatter) (r : LogRecord) :
  Forall (fun b => str_occurs (b ++ ".") (name r) = false) (_remove_base self) ->
  name (fst (format env self r)) = name r.
Proof.
  intros H. destruct (format_name_levelname env self r) as [Hn _].
  rewrite Hn. apply strip_bases_without_occurrence, H.
Qed.

Lemma names_without_a_base_are_kept_witness :
  name (fst (format sample_env default_formatter (sample_record "requests.adapters")))
  = "requests.adapters".
Proof.
  apply (names_without_a_base_are_kept sample_env default_formatter
           (sample_record "requests.adapters")).
  repeat constructor.
Defined.

(** X11: The intended use: a name that begins with the one configured base and
    "." loses that start, and the rest is kept when the base does not come
    up in it again. *)
Theorem leading_base_is_cut
    (env : environment) (self : StringFormatter) (r : LogRecord) (b rest : string) :
  _remove_base self = [b] ->
  name r = b ++ "." ++ rest ->
  str_occurs (b ++ ".") rest = false ->
  name (fst (format env self r)) = rest.
Proof.
  intros Hb Hn Hrest. destruct (format_name_levelname env self r) as [E _].
  rewrite E, Hb, Hn. unfold strip_bases. cbn [fold_left].
  assert (Hne : b ++ "." <> "") by apply base_dot_nonempty.
  assert (Happ : b ++ "." ++ rest = (b ++ ".") ++ rest).
  { clear. induction b as [|c b IH]; [reflexivity|].
    change (String c (b ++ "." ++ rest) = String c ((b ++ ".") ++ rest)).
    rewrite IH. reflexivity. }
  rewrite Happ.
  pose proof (replace_without_occurrence _ _ Hrest) as Hkeep.
  destruct (b ++ ".") as [|c bd] eqn:Hbd; [congruence|].
  unfold PyStr.replace_with_empty in *.
  rewrite replace_aux_match by discriminate. exact Hkeep.
Qed.

Lemma leading_base_is_cut_witness :
  name (fst (format sample_env streamlink_formatter
               (sample_record "streamlink.stream.hls")))
  = "stream.hls".
Proof.
  apply (leading_base_is_cut sample_env streamlink_formatter
           (sample_record "streamlink.stream.hls") "streamlink" "stream.hls");
    reflexivity.
Defined.

(** ** The warning bridge *)

(** X12: A warning shown without a file while [root] is enabled for [WARNING]
    becomes one record, named "warnings", at level [WARNING], located
    where the warning was raised; the default format renders it as
    "[warnings][<category name through str.lower()>] <text>", with the location on a
    second line unless the category is one of the application's own.
    While [root] is not enabled for [WARNING] no record is built, and a
    warning shown with a file never reaches the logger. *)
Theorem shown_warning_becomes_a_record
    (env : environment) (p : platform) (site : call_site) (st : module_state)
    (text : string) (category : option pyclass) (file_name : string) (lno : Z)
    (line : option string) :
  let logged := _showwarning_effects env p site st text category file_name lno None line
                  no_effects in
  let kind := match category with Some c => cls_name c | None => "UserWarning" end in
  let own := match category with
             | Some c => issubclass c StreamlinkWarning
             | None => false
             end in
  (isEnabledFor (root st) WARNING = true ->
   exists r,
     made_records logged = [r]
     /\ name r = "warnings" /\ levelno r = WARNING /\ levelname r = kind
     /\ pathname r = file_name /\ lineno r = lno
     /\ snd (format env default_formatter r)
        = Return ("[warnings][" ++ str_lower env kind ++ "] "
                    ++ (if own then text
                        else text ++ String "010" "  " ++ file_name ++ ":"
                               ++ PyStr.str_of_int lno)))
  /\ (isEnabledFor (root st) WARNING = false -> made_records logged = [])
  /\ (forall file eff,
        _showwarning_effects env p site st text category file_name lno (Some file) line eff
        = eff).
Proof.
  cbn zeta. unfold _showwarning_effects, _showwarning, Logger_log.
  split; [|split].
  - intros Hon. rewrite Hon. eexists. split; [reflexivity|].
    cbn -[String.append str_lower format]. repeat (split; [reflexivity|]).
    unfold format, format_fields, Formatter_format, getMessage.
    cbn -[String.append str_lower style_format FORMAT_BASE WarningLogRecord_getMessage].
    erewrite style_format_FORMAT_BASE by reflexivity.
    cbn -[String.append str_lower]. reflexivity.
  - intros Hoff. rewrite Hoff. reflexivity.
  - intros file eff. destruct (_showwarning_default st); reflexivity.
Qed.

Lemma shown_warning_becomes_a_record_witness :
  let st := initial_state (Other_showwarning 0) in
  exists r,
    made_records
      (_showwarning_effects sample_env Py64 sample_site st "old API"
         (Some DeprecationWarning) "/app/plugin.py" 7 None None no_effects) = [r]
    /\ snd (format sample_env default_formatter r)
       = Return ("[warnings][deprecationwarning] old API"
                   ++ String "010" "  /app/plugin.py:7").
Proof.
  cbn zeta.
  destruct (shown_warning_becomes_a_record sample_env Py64 sample_site
              (initial_state (Other_showwarning 0)) "old API" (Some DeprecationWarning)
              "/app/plugin.py" 7 None) as [Hon _].
  destruct (Hon eq_refl) as (r & Hr & _ & _ & _ & _ & _ & Hline).
  exists r. split; [exact Hr|exact Hline].
Defined.

Lemma capturewarnings_keeps_coherence (b : bool) (st : module_state) :
  hooks_coherent st -> hooks_coherent (capturewarnings b st).
Proof.
  unfold hooks_coherent, capturewarnings.
  destruct b; destruct (_showwarning_default st) as [h|] eqn:E; cbn; rewrite ?E; tauto.
Qed.

(** X13: Once capture is enabled from a state where it was off, a warning
    shown with a file is handed to the hook that was installed before,
    and one without a file is logged with its fields unchanged; after a
    disable the installed hook is again the earlier one. *)
Theorem captured_warnings_reach_the_previous_hook
    (st : module_state) (text : string) (category : option pyclass)
    (file_name : string) (lno : Z) (file : pystream) (line : option string) :
  _showwarning_default st = None ->
  let on := capturewarnings true st in
  warnings_showwarning on = This_showwarning
  /\ _showwarning on text category file_name lno (Some file) line
     = Delegated (warnings_showwarning st)
  /\ _showwarning on text category file_name lno None line
     = Logged {| wm_message := text; wm_category := category;
                 wm_filename := file_name; wm_lineno := lno; wm_line := line |}
  /\ _showwarning st text category file_name lno (Some file) line = Dropped
  /\ warnings_showwarning (capturewarnings false on) = warnings_showwarning st.
Proof.
  intros Hoff. cbn zeta. unfold capturewarnings, _showwarning. rewrite Hoff. cbn.
  repeat split.
Qed.

Lemma captured_warnings_reach_the_previous_hook_witness :
  _showwarning (capturewarnings true (initial_state (Other_showwarning 3)))
    "old API" None "/app/plugin.py" 7 (Some (plain_stream 2)) None
  = Delegated (Other_showwarning 3).
Proof.
  apply (captured_warnings_reach_the_previous_hook (initial_state (Other_showwarning 3))
           "old API" None "/app/plugin.py" 7 (plain_stream 2) None).
  reflexivity.
Defined.

(** ** Replacing the stream of a handler *)



(** ** Configuration, call by call *)

(** Whatever a call is given and however it ends, by returning or by
    raising, it leaves the handlers attached before in place and in
    order (new ones come after them), it never touches the logger's name,
    ancestors or switches, and it leaves the two hook slots either as
    they were or as [capturewarnings(True)] sets them. *)
Lemma basicConfig_any_outcome (env : environment) (p : platform) (ct : Z) (c : config)
    (st : module_state) :
  let st' := fst (basicConfig env p ct c st) in
  handlers (root st) `prefix_of` handlers (root st')
  /\ logger_name (root st') = logger_name (root st)
  /\ parent_levels (root st') = parent_levels (root st)
  /\ logger_disabled (root st') = logger_disabled (root st)
  /\ manager_disable (root st') = manager_disable (root st)
  /\ (next_id st <= next_id st')%nat
  /\ ((warnings_showwarning st' = warnings_showwarning st
       /\ _showwarning_default st' = _showwarning_default st)
      \/ (warnings_showwarning st' = warnings_showwarning (capturewarnings true st)
          /\ _showwarning_default st' = _showwarning_default (capturewarnings true st))).
Proof.
  destruct st as [[nm lv pl dis md hs] sw sd n].
  destruct c as [file mode f dfmt lvl strm rb cw].
  unfold basicConfig, FileHandler_new, StreamHandler_new, root_setLevel, _checkLevel.
  cbn.
  destruct file as [file|];
    [destruct (open_file env file mode) as [oerr|] eqn:Hopen
    |destruct strm as [s|]; [destruct (stream_reconfigurable s) eqn:Hrec|]];
    destruct (StringFormatter_init env p ct f (Some dfmt) (Some (or_REMOVE_BASE rb)))
      as [fm|ferr] eqn:Hinit;
    (destruct lvl as [l|]; [destruct (level_value p l) as [v|] eqn:Hvalue|]);
    destruct cw; destruct sd;
    unfold bind, ret, lift, modify, new_id, _stream_reconfigure, with_root; cbn;
    rewrite ?Hopen, ?Hrec, ?Hinit, ?Hvalue; cbn;
    try match goal with
        | |- context [existsb ?g hs] => destruct (existsb g hs)
        end;
    cbn;
    (split; [first [reflexivity | apply prefix_app_r; reflexivity]|]);
    repeat (split; [first [reflexivity | lia]|]);
    first [left; split; reflexivity | right; split; reflexivity].
Qed.

Lemma basicConfig_all_state (env : environment) (p : platform) (ct : Z) (c : config)
    (cs : list config) (st : module_state) :
  fst (basicConfig_all env p ct (c :: cs) st)
  = match basicConfig env p ct c st with
    | (st1, Return _) => fst (basicConfig_all env p ct cs st1)
    | (st1, Raise _) => st1
    end.
Proof.
  cbn [basicConfig_all]. unfold bind at 1.
  destruct (basicConfig env p ct c st) as [st1 [o|e]]; [|reflexivity].
  unfold bind at 1.
  destruct (basicConfig_all env p ct cs st1) as [st2 [hs|e]]; reflexivity.
Qed.

(** X16: No run of calls ever detaches a handler: whatever the arguments, and
    whether the run ends normally or with an exception, the handlers that
    were attached are still there, in order, at the front. *)
Theorem basicConfig_never_detaches (env : environment) (p : platform) (ct : Z)
    (cs : list config) (st : module_state) :
  handlers (root st) `prefix_of` handlers (root (fst (basicConfig_all env p ct cs st)))
  /\ (length (handlers (root st))
      <= length (handlers (root (fst (basicConfig_all env p ct cs st)))))%nat.
Proof.
  assert (H : handlers (root st)
              `prefix_of` handlers (root (fst (basicConfig_all env p ct cs st)))).
  { revert st. induction cs as [|c cs IH]; intros st; [reflexivity|].
    rewrite basicConfig_all_state.
    destruct (basicConfig_any_outcome env p ct c st) as [Hpre _]. cbn zeta in Hpre.
    destruct (basicConfig env p ct c st) as [st1 [o|e]]; cbn [fst] in Hpre.
    - etransitivity; [exact Hpre|apply IH].
    - exact Hpre. }
  split; [exact H|apply prefix_length, H].
Qed.

(** X14: The hook slots stay coherent under [capturewarnings] and under any
    run of [basicConfig] calls, so the hook a warning is handed to is
    never [_showwarning] itself. *)
Theorem hooks_stay_coherent (env : environment) (p : platform) (ct : Z)
    (st : module_state) :
  hooks_coherent st ->
  (forall b, hooks_coherent (capturewarnings b st))
  /\ (forall cs, hooks_coherent (fst (basicConfig_all env p ct cs st)))
  /\ (forall text category file_name lno file line h,
        _showwarning st text category file_name lno file line = Delegated h ->
        h <> This_showwarning).
Proof.
  intros Hco. split; [intros b; apply capturewarnings_keeps_coherence, Hco|]. split.
  - intros cs. revert st Hco. induction cs as [|c cs IH]; intros st Hco; [exact Hco|].
    rewrite basicConfig_all_state.
    destruct (basicConfig_any_outcome env p ct c st) as (_ & _ & _ & _ & _ & _ & Hh).
    cbn zeta in Hh.
    assert (Hco1 : hooks_coherent (fst (basicConfig env p ct c st))).
    { pose proof (capturewarnings_keeps_coherence true st Hco) as Hon.
      unfold hooks_coherent in *.
      destruct Hh as [[-> ->]|[-> ->]]; assumption. }
    destruct (basicConfig env p ct c st) as [st1 [o|e]]; cbn [fst] in Hco1.
    + apply IH, Hco1.
    + exact Hco1.
  - intros text category file_name lno file line h. unfold _showwarning.
    unfold hooks_coherent in Hco.
    destruct file; [|discriminate].
    destruct (_showwarning_default st) as [h'|]; [|discriminate].
    intros E. injection E as <-. tauto.
Qed.

Lemma hooks_stay_coherent_witness :
  let st := initial_state (Other_showwarning 0) in
  hooks_coherent (capturewarnings false (capturewarnings true st))
  /\ hooks_coherent
       (fst (basicConfig_all sample_env Py64 0
               [stream_level_config (sample_stream 1 (Return tt)) "debug"] st)).
Proof.
  cbn zeta.
  destruct (hooks_stay_coherent sample_env Py64 0 (initial_state (Other_showwarning 0)))
    as (_ & Hcalls & _); [discriminate|].
  destruct (hooks_stay_coherent sample_env Py64 0
              (capturewarnings true (initial_state (Other_showwarning 0))))
    as (Hcap & _); [split; [reflexivity|discriminate]|].
  split; [apply Hcap|apply Hcalls].
Defined.









(** X20: A call that fails on its target or on its format raises before
    anything is attached: a stream without [reconfigure] ends in an
    [AttributeError], a file that cannot be opened in the error of the
    open, a format the formatter refuses in the formatter's error; in each
    case [root] and both hook slots are as before, the level and the
    [capture_warnings] argument not having been looked at. *)
Theorem basicConfig_fails_before_attaching (env : environment) (p : platform) (ct : Z)
    (c : config) (st : module_state) :
  (exists file e, cfg_filename c = Some file
                  /\ open_file env file (cfg_filemode c) = Some e)
  \/ (cfg_filename c = None
      /\ exists s, cfg_stream c = Some s /\ stream_reconfigurable s = false)
  \/ (has_target c = true
      /\ is_Return (StringFormatter_init env p ct (cfg_format c) (Some (cfg_datefmt c))
                      (Some (or_REMOVE_BASE (cfg_remove_base c)))) = false) ->
  exists st' e,
    basicConfig env p ct c st = (st', Raise e)
    /\ root st' = root st
    /\ warnings_showwarning st' = warnings_showwarning st
    /\ _showwarning_default st' = _showwarning_default st.
Proof.
  intros Hfail.
  destruct st as [r sw sd n].
  destruct c as [file mode f dfmt lvl strm rb cw].
  unfold has_target in Hfail. cbn in Hfail.
  unfold basicConfig, FileHandler_new, StreamHandler_new.
  cbn.
  destruct Hfail as [(file' & e & -> & Hopen)|[(-> & s & -> & Hrec)|[Htgt Hinit]]].
  - unfold bind, lift. cbn. rewrite Hopen. cbn. eexists _, _. repeat split.
  - unfold bind, ret, lift, new_id, _stream_reconfigure. cbn. rewrite Hrec. cbn.
    eexists _, _. repeat split.
  - destruct (StringFormatter_init env p ct f (Some dfmt) (Some (or_REMOVE_BASE rb)))
      as [fm|ferr] eqn:Hi; [discriminate|].
    destruct file as [file|];
      [destruct (open_file env file mode) as [oerr|] eqn:Hopen
      |destruct strm as [s|]; [destruct (stream_reconfigurable s) eqn:Hrec|discriminate]];
      unfold bind, ret, lift, modify, new_id, _stream_reconfigure, with_root; cbn;
      rewrite ?Hopen, ?Hrec, ?Hi; cbn;
      eexists _, _; repeat split.
Qed.

Lemma basicConfig_fails_before_attaching_witness :
  exists st' e,
    basicConfig sample_env Py64 0 (stream_config (plain_stream 1))
      (initial_state (Other_showwarning 0)) = (st', Raise e)
    /\ root st' = root (initial_state (Other_showwarning 0)).
Proof.
  destruct (basicConfig_fails_before_attaching sample_env Py64 0
              (stream_config (plain_stream 1)) (initial_state (Other_showwarning 0)))
    as (st' & e & E & Hroot & _).
  - right. left. split; [reflexivity|]. exists (plain_stream 1). split; reflexivity.
  - exists st', e. split; assumption.
Defined.



(** ** The methods for the custom levels *)

(** X7: Each method the registration loop sets on the logger class carries
    the lowercase name of its level: on a logger enabled for that level a
    call builds exactly one record, at that level, whose level name is
    the method's name; on any other logger it builds none. *)
Theorem custom_level_methods (env : environment) (p : platform) (self : Logger)
    (call_args : list string) (site : call_site) (method : string) (lvl : Z)
    (text : string) :
  In (method, lvl) (logger_methods (registered p)) ->
  let after := logmethod env p self call_args site lvl text no_effects in
  In lvl _custom_levels
  /\ level_value p method = Some lvl
  /\ (isEnabledFor self lvl = true ->
      exists r, made_records after = [r]
                /\ levelno r = lvl /\ levelname r = method
                /\ msg r = MsgText text /\ name r = logger_name self)
  /\ (isEnabledFor self lvl = false -> made_records after = []).
Proof.
  intros Hin. cbn zeta.
  assert (Hcases : (method, lvl) = ("trace", TRACE) \/ (method, lvl) = ("all", ALL)).
  { assert (E : logger_methods (registered p) = [("trace", TRACE); ("all", ALL)])
      by (destruct p; vm_compute; reflexivity).
    rewrite E in Hin. destruct Hin as [H|[H|[]]]; [left|right]; symmetry; exact H. }
  unfold logmethod.
  destruct Hcases as [E|E]; injection E as -> ->.
  - split; [left; reflexivity|].
    split; [destruct p; vm_compute; reflexivity|].
    split; intros ->; [|reflexivity].
    eexists. split; [reflexivity|].
    cbn -[getLevelName registered]. repeat split.
    destruct p; vm_compute; reflexivity.
  - split; [right; left; reflexivity|].
    split; [destruct p; vm_compute; reflexivity|].
    split; intros ->; [|reflexivity].
    eexists. split; [reflexivity|].
    cbn -[getLevelName registered]. repeat split.
    destruct p; vm_compute; reflexivity.
Qed.

Lemma custom_level_methods_witness :
  let self := set_logger_level TRACE (root (initial_state (Other_showwarning 0))) in
  (exists r,
     made_records (logmethod sample_env Py64 self [] sample_site TRACE "tick" no_effects)
     = [r] /\ levelname r = "trace")
  /\ made_records (logmethod sample_env Py64 self [] sample_site ALL "tick" no_effects)
     = [].
Proof.
  cbn zeta.
  destruct (custom_level_methods sample_env Py64
              (set_logger_level TRACE (root (initial_state (Other_showwarning 0))))
              [] sample_site "trace" TRACE "tick") as (_ & _ & Hon & _);
    [vm_compute; auto|].
  destruct (custom_level_methods sample_env Py64
              (set_logger_level TRACE (root (initial_state (Other_showwarning 0))))
              [] sample_site "all" ALL "tick") as (_ & _ & _ & Hoff);
    [vm_compute; auto|].
  split.
  - destruct (Hon eq_refl) as (r & Hr & _ & Hname & _). exists r. split; assumption.
  - exact (Hoff eq_refl).
Defined.

(** ** Flushing, the other cases *)

Lemma flush_other_cases_witness :
  StreamHandler_flush (sample_stream 1 (Return tt)) = Return tt
  /\ StreamHandler_flush
       (sample_stream 1 (Raise (value_error "I/O operation on closed file.")))
     = Raise (value_error "I/O operation on closed file.").
Proof.
  destruct (flush_other_cases (sample_stream 1 (Return tt))) as [Hok _].
  destruct (flush_other_cases
              (sample_stream 1 (Raise (value_error "I/O operation on closed file."))))
    as [_ Hraise].
  split.
  - apply Hok. left. reflexivity.
  - apply Hraise; reflexivity.
Defined.
